(** * reg.py — regulation sandbox: a shallow embedding and its properties

    The script [reg.py] defines four functions ([tf_to_sympy],
    [conseil_regulateur], [create_pid], [symbolic_analysis]) and a top-level
    script that calls them.  It leans on three libraries: python-control
    (transfer functions, poles, step metrics, feedback), SymPy (symbolic
    expressions) and NumPy (coefficient arrays).

    Python functions may raise, so every embedded function returns an
    [outcome].  Calls into the libraries whose result is numerical or
    heuristic (root finding, step metrics, simplification, integration,
    differentiation, the conversion of a text to a float) are section
    variables: the theorems hold for whatever the library answers.  The
    library operations that are plain algebra on coefficient sequences (the
    transfer-function constructor with its validation and trimming, series
    product, unity feedback, element-wise array arithmetic) are written
    out. *)

From Stdlib Require Import ZArith List String PrimFloat FloatOps FloatAxioms SpecFloat
  Bool Lia
  Ring Ring_theory.
From stdpp Require Import base option list gmap strings.
From Stdlib Require Import Ascii.

Open Scope string_scope.

(* ===================================================================== *)
(** ** Python outcomes: a value or a raised exception                     *)
(* ===================================================================== *)

Module Py.

(** An exception is identified by the name of its class. *)
Inductive exn : Type := Exn (cls : string).

Inductive outcome (A : Type) : Type :=
| Returned (a : A)
| Raised (e : exn).
Arguments Returned {A} a.
Arguments Raised {A} e.

Definition bind {A B} (c : outcome A) (k : A -> outcome B) : outcome B :=
  match c with
  | Returned a => k a
  | Raised e => Raised e
  end.

(** [try: body / except: handler] with a bare [except]: whatever the body
    raises is discarded and the handler runs instead. *)
Definition try_except {A} (body handler : outcome A) : outcome A :=
  match body with
  | Returned a => Returned a
  | Raised _ => handler
  end.

(** [d.get(key, default)] on a dictionary with string keys. *)
Definition dict_get {V} (d : gmap string V) (key : string) (dflt : V) : V :=
  match d !! key with
  | Some v => v
  | None => dflt
  end.

(** [xs[i]] on a Python list. *)
Definition index {V} (xs : list V) (i : nat) : outcome V :=
  match xs !! i with
  | Some v => Returned v
  | None => Raised (Exn "IndexError")
  end.

End Py.
Import Py.

#[export] Instance outcome_ret : MRet outcome := @Returned.
#[export] Instance outcome_bind : MBind outcome := fun A B k c => Py.bind c k.

(* ===================================================================== *)
(** ** Numbers                                                            *)
(* ===================================================================== *)

(** The arithmetic the libraries perform on coefficients.  Python floats are
    binary64 values ([float] below); the exact integers are a second
    instance, used where a statement is about exact polynomial algebra. *)
Class PyNum (A : Type) : Type := {
  zero : A;
  one : A;
  add : A -> A -> A;
  mul : A -> A -> A
}.

#[export] Instance float_num : PyNum float :=
  {| zero := 0%float; one := 1%float; add := PrimFloat.add; mul := PrimFloat.mul |}.

#[export] Instance Z_num : PyNum Z :=
  {| zero := 0%Z; one := 1%Z; add := Z.add; mul := Z.mul |}.

(** Python's truth test on a number, as in [if k:]: a number is falsy when
    it compares equal to zero.  On binary64 both zeros are falsy and NaN is
    not. *)
Class PyTruth (A : Type) : Type := {
  falsy : A -> bool
}.

#[export] Instance float_truth : PyTruth float :=
  {| falsy := fun x => (x =? 0)%float |}.


(** A float is finite when it is neither NaN nor infinite. *)
Definition is_finite (x : float) : bool :=
  negb (PrimFloat.is_nan x) && negb (PrimFloat.is_infinity x).

(** A complex number as NumPy holds it: two binary64 parts. *)
Record complex : Type := Complex { re : float; im : float }.

(* ===================================================================== *)
(** ** NumPy: polynomial arithmetic on coefficient sequences              *)
(* ===================================================================== *)

Module Numpy.
Section Poly.
Context {A : Type} `{PyNum A} `{PyTruth A}.

(** [numpy.polyadd]: the shorter sequence is padded with leading zeros and
    the two are added coefficient by coefficient. *)
Definition pad (n : nat) (p : list A) : list A :=
  repeat zero (n - length p) ++ p.

Definition polyadd (p q : list A) : list A :=
  let n := Nat.max (length p) (length q) in
  zip_with add (pad n p) (pad n q).

(** [numpy.trim_zeros(p, 'f')]: everything from the first coefficient that
    differs from zero on. *)
Fixpoint strip (p : list A) : list A :=
  match p with
  | [] => []
  | c :: p' => if falsy c then strip p' else p
  end.

(** The coefficients [numpy.poly1d] keeps of a sequence: leading zeros are
    trimmed, and nothing left stands for [[0]]. *)
Definition poly1d (p : list A) : list A :=
  match strip p with
  | [] => [zero]
  | q => q
  end.

(** The sums of [numpy.convolve(a, v)] when [a] is at least as long as
    [v]: coefficient [k] of the result is the sum of the products
    [a[i] * v[k - i]], accumulated from zero in the order of increasing
    [i].  Here the sum is built one element of [a] at a time: the partial
    result is shifted by one place and the multiple [x * v] is added to
    it. *)
Definition convolve_sums (a v : list A) : list A :=
  fold_left (fun acc x => polyadd (acc ++ [zero]) (map (mul x) v)) a [].

(** [numpy.convolve]: the longer sequence comes first. *)
Definition convolve (a v : list A) : list A :=
  if Nat.ltb (length a) (length v) then convolve_sums v a else convolve_sums a v.

(** [numpy.polymul]: both arguments are made polynomials with [poly1d],
    and their coefficients are convolved. *)
Definition polymul (p q : list A) : list A :=
  convolve (poly1d p) (poly1d q).

(** [numpy.polyval]: Horner evaluation, highest degree first. *)
Definition polyval (p : list A) (x : A) : A :=
  fold_left (fun acc c => add (mul acc x) c) p zero.

(** [k * array]: every coefficient multiplied by the scalar. *)
Definition scale (k : A) (p : list A) : list A := map (mul k) p.

End Poly.
End Numpy.
Import Numpy.

(* ===================================================================== *)
(** ** python-control: transfer functions                                 *)
(* ===================================================================== *)

Module Control.

(** A single-input single-output transfer function object: the two
    coefficient arrays it holds, highest degree first.  [tf n d] is the
    object whose stored arrays are [n] and [d]; what the library's
    constructor stores for given arguments is [construct] below. *)
Record TransferFunction (A : Type) : Type := tf {
  num_coeffs : list A;
  den_coeffs : list A
}.
Arguments tf {A} _ _.
Arguments num_coeffs {A} _.
Arguments den_coeffs {A} _.

(** The attributes [sys.num] and [sys.den] are two-dimensional lists of
    arrays: [sys.num[i][j]] is the coefficient array from input [j] to
    output [i].  For a single-input single-output system both dimensions
    have length one. *)
Definition num {A} (sys : TransferFunction A) : list (list (list A)) :=
  [[num_coeffs sys]].
Definition den {A} (sys : TransferFunction A) : list (list (list A)) :=
  [[den_coeffs sys]].

Section Algebra.
Context {A : Type} `{PyNum A} `{PyTruth A}.

(** The constructor's test [for k in array: if k: ...]: no coefficient is
    truthy. *)
Definition all_zero (p : list A) : bool := forallb falsy p.

(** [_truncatecoeff]: the array is cut at its first truthy coefficient, so
    leading zero coefficients are removed; an array of zeros becomes
    [zeros(1)]. *)
Definition truncatecoeff (p : list A) : list A :=
  match strip p with
  | [] => [zero]
  | q => q
  end.

(** [control.TransferFunction(num, den)] on two coefficient sequences.  A
    denominator without a truthy coefficient is refused with ValueError; a
    numerator without one has its denominator replaced by [ones(1)]; then
    both arrays are truncated. *)
Definition construct (num den : list A) : outcome (TransferFunction A) :=
  if all_zero den then Raised (Exn "ValueError")
  else
    let den := if all_zero num then [one] else den in
    Returned (tf (truncatecoeff num) (truncatecoeff den)).

(** [_add_siso]: the sum of two fractions, without simplification. *)
Definition add_siso (num1 den1 num2 den2 : list A) : list A * list A :=
  (polyadd (polymul num1 den2) (polymul num2 den1), polymul den1 den2).

(** [sys1 * sys2]: the series connection.  The library multiplies the
    numerators and the denominators, adds the product to the fraction
    [[0]/[1]] it starts from, and builds the result with the constructor. *)
Definition series (sys1 sys2 : TransferFunction A) : outcome (TransferFunction A) :=
  let num_summand := polymul (num_coeffs sys1) (num_coeffs sys2) in
  let den_summand := polymul (den_coeffs sys1) (den_coeffs sys2) in
  let '(num, den) := add_siso [zero] [one] num_summand den_summand in
  construct num den.

(** A bare number used where a system is expected is converted with the
    constructor, from the numerator [[k]] and the denominator [[1]]. *)
Definition constant (k : A) : outcome (TransferFunction A) := construct [k] [one].

(** [control.feedback(sys1, k)] with a number [k] in the return path and the
    default [sign = -1]: numerator [num1 * den2], denominator
    [den2 * den1 + 1 * (num2 * num1)], the factor [1] being [-sign]; the
    result is built with the constructor. *)
Definition feedback (sys1 : TransferFunction A) (k : A) : outcome (TransferFunction A) :=
  other ← constant k;
  let num1 := num_coeffs sys1 in
  let den1 := den_coeffs sys1 in
  let num2 := num_coeffs other in
  let den2 := den_coeffs other in
  let num := polymul num1 den2 in
  let den := polyadd (polymul den2 den1) (scale one (polymul num2 num1)) in
  construct num den.

End Algebra.
End Control.
Import Control.

(* ===================================================================== *)
(** ** SymPy expressions and NumPy arrays of them                         *)
(* ===================================================================== *)

Module Sympy.

(** Expression trees as the script builds them with [+], [*], [/] and [**]
    on a symbol.  [Integral f x] is the object [sympy.integrate] hands back
    when it finds no closed form: the integral, left unevaluated. *)
Inductive expr (A : Type) : Type :=
| Number (c : A)
| Symbol (name : string)
| Add (a b : expr A)
| Mul (a b : expr A)
| Div (a b : expr A)
| Pow (a : expr A) (n : nat)
| Integral (f x : expr A).
Arguments Number {A} c.
Arguments Symbol {A} name.
Arguments Add {A} a b.
Arguments Mul {A} a b.
Arguments Div {A} a b.
Arguments Pow {A} a n.
Arguments Integral {A} f x.

(** What a Python variable of the symbolic part holds: one expression, or a
    one-dimensional NumPy array of them (a float array being an array of
    [Number]s). *)
Inductive value (A : Type) : Type :=
| Scalar (e : expr A)
| Array (es : list (expr A)).
Arguments Scalar {A} e.
Arguments Array {A} es.

Definition is_array {A} (v : value A) : bool :=
  match v with
  | Scalar _ => false
  | Array _ => true
  end.

(** The largest power to which a symbol is raised inside an expression. *)
Fixpoint degree {A} (e : expr A) : nat :=
  match e with
  | Number _ => 0
  | Symbol _ => 1
  | Add a b | Mul a b | Div a b | Integral a b => Nat.max (degree a) (degree b)
  | Pow a n => degree a * n
  end.

Definition value_degree {A} (v : value A) : nat :=
  match v with
  | Scalar e => degree e
  | Array es => foldr Nat.max 0 (map degree es)
  end.

(** A binary operator applied by NumPy: element by element, a scalar or a
    one-element array being stretched over the other operand; two arrays of
    different lengths greater than one cannot be combined. *)
Definition broadcast {A} (f : expr A -> expr A -> expr A) (u v : value A)
  : outcome (value A) :=
  match u, v with
  | Scalar a, Scalar b => Returned (Scalar (f a b))
  | Array xs, Scalar b => Returned (Array (map (fun a => f a b) xs))
  | Scalar a, Array ys => Returned (Array (map (f a) ys))
  | Array xs, Array ys =>
      if Nat.eqb (length xs) (length ys) then Returned (Array (zip_with f xs ys))
      else match xs, ys with
           | [a], _ => Returned (Array (map (f a) ys))
           | _, [b] => Returned (Array (map (fun a => f a b) xs))
           | _, _ => Raised (Exn "ValueError")
           end
  end.

(** The built-in [sum]: starting from the accumulator, the terms are added
    from left to right as the generator yields them. *)
Fixpoint py_sum {A} (acc : value A) (terms : list (outcome (value A)))
  : outcome (value A) :=
  match terms with
  | [] => Returned acc
  | t :: ts => x ← t; acc' ← broadcast Add acc x; py_sum acc' ts
  end.

(** [sympy.Poly(coeffs, s).as_expr()]: the polynomial whose coefficients,
    highest degree first, are [coeffs]. *)
Definition Poly_as_expr {A} `{PyNum A} (coeffs : list A) (x : expr A) : expr A :=
  foldr Add (Number zero)
    (imap (fun i c => Mul (Number c) (Pow x (length coeffs - i - 1))) coeffs).

End Sympy.
Import Sympy.

(* ===================================================================== *)
(** ** The functions of reg.py                                            *)
(* ===================================================================== *)

Section Symbolic.
Context {A : Type} `{PyNum A}.

(** [sympy.simplify], [sympy.integrate] and [sympy.diff]. *)
Variable simplify : value A -> outcome (value A).
Variable integrate : value A -> expr A -> outcome (value A).
Variable diff : value A -> expr A -> outcome (value A).

(** [sum(row[i] * s**(len(row) - i - 1) for i in range(len(row)))], the
    expression of lines 17-20 with [row] standing for [sys.num[0]] or
    [sys.den[0]]. *)
Definition weighted_sum (row : list (list A)) (s : expr A) : outcome (value A) :=
  py_sum (Scalar (Number zero))
    (imap (fun i row_i =>
             broadcast Mul (Array (map Number row_i))
                           (Scalar (Pow s (length row - i - 1))))
          row).

Definition tf_to_sympy (sys : TransferFunction A) : outcome (value A) :=
  let s := Symbol "s" in
  num_0 ← index (Control.num sys) 0;
  num ← weighted_sum num_0 s;
  den_0 ← index (Control.den sys) 0;
  den ← weighted_sum den_0 s;
  ratio ← broadcast Div num den;
  simplify ratio.

Definition symbolic_analysis (num den : list A)
  : outcome (value A * value A * value A) :=
  let s := Symbol "s" in
  let num_poly := Poly_as_expr num s in
  let den_poly := Poly_as_expr den s in
  Gs ← simplify (Scalar (Div num_poly den_poly));
  primitive ← integrate Gs s;
  integ ← simplify primitive;
  derivative ← diff Gs s;
  deriv ← simplify derivative;
  Returned (Gs, integ, deriv).

End Symbolic.

Definition create_pid {A} `{PyNum A} `{PyTruth A} (Kp Ki Kd : A)
  : outcome (TransferFunction A) :=
  Control.construct [Kd; Kp; Ki] [one; zero].

Section Advisor.

(** [control.poles], its older spelling [control.pole], and
    [control.step_info]: numerical routines of the library. *)
Variable control_poles : TransferFunction float -> outcome (list complex).
Variable control_pole : TransferFunction float -> outcome (list complex).
Variable control_step_info : TransferFunction float -> outcome (gmap string float).

(** Lines 140-143 of the script; the same four lines open
    [conseil_regulateur]. *)
Definition poles (sys : TransferFunction float) : outcome (list complex) :=
  try_except (control_poles sys) (control_pole sys).

Definition conseil_regulateur (sys : TransferFunction float)
  : outcome (string * string) :=
  _poles ← poles sys;
  info ← control_step_info sys;
  let overshoot := dict_get info "Overshoot" 0%float in
  let settling := dict_get info "SettlingTime" 0%float in
  if (overshoot <? 1)%float && (settling <? 2)%float then
    Returned ("P", "Le système est déjà stable et rapide → correcteur P suffisant.")
  else if (overshoot <? 10)%float then
    Returned ("PI", "Erreur statique possible, dynamique stable → PI adapté.")
  else if (20 <? overshoot)%float then
    Returned ("PD", "Système oscillant → dérivée nécessaire.")
  else
    Returned ("PID", "Cas général → PID pour précision + stabilité.").

End Advisor.

(** Line 178 of the script: [control.feedback(pid * system, 1)]. *)
Definition closed_loop {A} `{PyNum A} `{PyTruth A} (pid system : TransferFunction A)
  : outcome (TransferFunction A) :=
  open_loop ← series pid system;
  feedback open_loop one.

(* ===================================================================== *)
(** ** The text fields: lines 100-106                                     *)
(* ===================================================================== *)

(** [s.split(sep)] for a one-character separator: the pieces between the
    occurrences of [sep], empty pieces included. *)
Fixpoint split (sep : ascii) (s : string) : list string :=
  match s with
  | EmptyString => [EmptyString]
  | String c rest =>
      if Ascii.eqb c sep then EmptyString :: split sep rest
      else match split sep rest with
           | piece :: pieces => String c piece :: pieces
           | [] => [String c EmptyString]
           end
  end.

(** [sep.join(pieces)]. *)
Fixpoint join (sep : ascii) (pieces : list string) : string :=
  match pieces with
  | [] => EmptyString
  | [piece] => piece
  | piece :: rest => piece ++ String sep (join sep rest)
  end.

(** [s.count(c)] and [c in s] for a character. *)
Fixpoint occurrences (c : ascii) (s : string) : nat :=
  match s with
  | EmptyString => 0
  | String c' rest => (if Ascii.eqb c' c then 1 else 0) + occurrences c rest
  end.

Definition contains (c : ascii) (s : string) : bool :=
  negb (Nat.eqb (occurrences c s) 0).

(** A list comprehension whose element expression may raise: the elements
    are computed from left to right and the first exception ends it. *)
Fixpoint traverse {A B} (f : A -> outcome B) (xs : list A) : outcome (list B) :=
  match xs with
  | [] => Returned []
  | x :: xs' => y ← f x; ys ← traverse f xs'; Returned (y :: ys)
  end.

Section TextInput.

(** The built-in [float] applied to a string. *)
Variable py_float : string -> outcome float.

(** Lines 105 and 106: [[float(x) for x in raw.split(",")]]. *)
Definition parse_coefficients (raw : string) : outcome (list float) :=
  traverse py_float (split ","%char raw).

End TextInput.

(* ===================================================================== *)
(** ** The top-level script                                               *)
(* ===================================================================== *)

(** The objects the script binds to its module-level names. *)
Inductive object : Type :=
| OList (xs : list float)
| OFloat (x : float)
| OStr (s : string)
| OSystem (sys : TransferFunction float)
| OValue (v : value float)
| OPoles (ps : list complex)
| ODict (d : gmap string float)
| OArray (xs : list float)
| OColumn (id : nat).

(** Reading a module-level name. *)
Definition load (g : gmap string object) (name : string) : outcome object :=
  match g !! name with
  | Some o => Returned o
  | None => Raised (Exn "NameError")
  end.

Definition as_list (o : object) : outcome (list float) :=
  match o with OList xs => Returned xs | _ => Raised (Exn "TypeError") end.
Definition as_float (o : object) : outcome float :=
  match o with OFloat x => Returned x | _ => Raised (Exn "TypeError") end.
Definition as_system (o : object) : outcome (TransferFunction float) :=
  match o with OSystem sys => Returned sys | _ => Raised (Exn "TypeError") end.
Definition as_str (o : object) : outcome string :=
  match o with OStr s => Returned s | _ => Raised (Exn "AttributeError") end.

(** What the widgets hand to the script: the two column containers (each
    identified by a number), the texts of the two fields and the three
    slider values. *)
Record inputs : Type := Inputs {
  in_col1 : nat;
  in_col2 : nat;
  in_num_raw : string;
  in_den_raw : string;
  in_Kp : float;
  in_Ki : float;
  in_Kd : float
}.

Section Script.

Variable py_float : string -> outcome float.
Variable simplify : value float -> outcome (value float).
Variable integrate : value float -> expr float -> outcome (value float).
Variable diff : value float -> expr float -> outcome (value float).
Variable control_poles : TransferFunction float -> outcome (list complex).
Variable control_pole : TransferFunction float -> outcome (list complex).
Variable control_step_info : TransferFunction float -> outcome (gmap string float).
Variable control_step_response :
  TransferFunction float -> outcome (list float * list float).

(** Lines 98-181 without the rendering calls: every assignment to a
    module-level name, in order, starting from the namespace [g]. *)
Definition script (inp : inputs) (g : gmap string object)
  : outcome (gmap string object) :=
  let g := <["col1" := OColumn (in_col1 inp)]> g in
  let g := <["col2" := OColumn (in_col2 inp)]> g in
  _col1 ← load g "col1";
  let g := <["num_raw" := OStr (in_num_raw inp)]> g in
  _col2 ← load g "col2";
  let g := <["den_raw" := OStr (in_den_raw inp)]> g in
  num_raw ← load g "num_raw" ≫= as_str;
  num ← parse_coefficients py_float num_raw;
  let g := <["num" := OList num]> g in
  den_raw ← load g "den_raw" ≫= as_str;
  den ← parse_coefficients py_float den_raw;
  let g := <["den" := OList den]> g in
  num ← load g "num" ≫= as_list;
  den ← load g "den" ≫= as_list;
  system ← Control.construct num den;
  let g := <["system" := OSystem system]> g in
  system ← load g "system" ≫= as_system;
  Gs_sym ← tf_to_sympy simplify system;
  let g := <["Gs_sym" := OValue Gs_sym]> g in
  num ← load g "num" ≫= as_list;
  den ← load g "den" ≫= as_list;
  '(Gs, integ, deriv) ← symbolic_analysis simplify integrate diff num den;
  let g := <["Gs" := OValue Gs]> g in
  let g := <["integ" := OValue integ]> g in
  let g := <["deriv" := OValue deriv]> g in
  system ← load g "system" ≫= as_system;
  ps ← poles control_poles control_pole system;
  let g := <["poles" := OPoles ps]> g in
  system ← load g "system" ≫= as_system;
  info ← control_step_info system;
  let g := <["step_info" := ODict info]> g in
  system ← load g "system" ≫= as_system;
  '(t, y) ← control_step_response system;
  let g := <["t" := OArray t]> g in
  let g := <["y" := OArray y]> g in
  system ← load g "system" ≫= as_system;
  '(reg_type, explanation) ←
    conseil_regulateur control_poles control_pole control_step_info system;
  let g := <["reg_type" := OStr reg_type]> g in
  let g := <["explanation" := OStr explanation]> g in
  let g := <["Kp" := OFloat (in_Kp inp)]> g in
  let g := <["Ki" := OFloat (in_Ki inp)]> g in
  let g := <["Kd" := OFloat (in_Kd inp)]> g in
  Kp ← load g "Kp" ≫= as_float;
  Ki ← load g "Ki" ≫= as_float;
  Kd ← load g "Kd" ≫= as_float;
  pid ← create_pid Kp Ki Kd;
  let g := <["pid" := OSystem pid]> g in
  pid ← load g "pid" ≫= as_system;
  system ← load g "system" ≫= as_system;
  cl ← closed_loop pid system;
  let g := <["closed_loop" := OSystem cl]> g in
  cl ← load g "closed_loop" ≫= as_system;
  '(t2, y2) ← control_step_response cl;
  let g := <["t2" := OArray t2]> g in
  let g := <["y2" := OArray y2]> g in
  Returned g.

(** The same run as one computation on the inputs followed by the
    assignments it makes. *)
Record results : Type := Results {
  r_num : list float;
  r_den : list float;
  r_system : TransferFunction float;
  r_Gs_sym : value float;
  r_Gs : value float;
  r_integ : value float;
  r_deriv : value float;
  r_poles : list complex;
  r_step_info : gmap string float;
  r_t : list float;
  r_y : list float;
  r_reg_type : string;
  r_explanation : string;
  r_pid : TransferFunction float;
  r_closed_loop : TransferFunction float;
  r_t2 : list float;
  r_y2 : list float
}.

Definition compute (inp : inputs) : outcome results :=
  num ← parse_coefficients py_float (in_num_raw inp);
  den ← parse_coefficients py_float (in_den_raw inp);
  system ← Control.construct num den;
  Gs_sym ← tf_to_sympy simplify system;
  '(Gs, integ, deriv) ← symbolic_analysis simplify integrate diff num den;
  ps ← poles control_poles control_pole system;
  info ← control_step_info system;
  '(t, y) ← control_step_response system;
  '(reg_type, explanation) ←
    conseil_regulateur control_poles control_pole control_step_info system;
  pid ← create_pid (in_Kp inp) (in_Ki inp) (in_Kd inp);
  cl ← closed_loop pid system;
  '(t2, y2) ← control_step_response cl;
  Returned (Results num den system Gs_sym Gs integ deriv ps info t y
              reg_type explanation pid cl t2 y2).

Definition bindings (inp : inputs) (r : results) : gmap string object :=
  <["y2" := OArray (r_y2 r)]> (
  <["t2" := OArray (r_t2 r)]> (
  <["closed_loop" := OSystem (r_closed_loop r)]> (
  <["pid" := OSystem (r_pid r)]> (
  <["Kd" := OFloat (in_Kd inp)]> (
  <["Ki" := OFloat (in_Ki inp)]> (
  <["Kp" := OFloat (in_Kp inp)]> (
  <["explanation" := OStr (r_explanation r)]> (
  <["reg_type" := OStr (r_reg_type r)]> (
  <["y" := OArray (r_y r)]> (
  <["t" := OArray (r_t r)]> (
  <["step_info" := ODict (r_step_info r)]> (
  <["poles" := OPoles (r_poles r)]> (
  <["deriv" := OValue (r_deriv r)]> (
  <["integ" := OValue (r_integ r)]> (
  <["Gs" := OValue (r_Gs r)]> (
  <["Gs_sym" := OValue (r_Gs_sym r)]> (
  <["system" := OSystem (r_system r)]> (
  <["den" := OList (r_den r)]> (
  <["num" := OList (r_num r)]> (
  <["den_raw" := OStr (in_den_raw inp)]> (
  <["num_raw" := OStr (in_num_raw inp)]> (
  <["col2" := OColumn (in_col2 inp)]> (
  <["col1" := OColumn (in_col1 inp)]> ∅))))))))))))))))))))))).

(** The names the script assigns. *)
Definition assigned : list string :=
  ["col1"; "col2"; "num_raw"; "den_raw"; "num"; "den"; "system"; "Gs_sym";
   "Gs"; "integ"; "deriv"; "poles"; "step_info"; "t"; "y"; "reg_type";
   "explanation"; "Kp"; "Ki"; "Kd"; "pid"; "closed_loop"; "t2"; "y2"].

(** The outputs of a run: what the assigned names hold at the end. *)
Definition outputs (g : gmap string object) : list (option object) :=
  map (fun name => g !! name) assigned.

End Script.

(* ===================================================================== *)
(** ** Vocabulary of the statements                                       *)
(* ===================================================================== *)

(** The four answers of the advisor. *)
Definition advice_P : string * string :=
  ("P", "Le système est déjà stable et rapide → correcteur P suffisant.").
Definition advice_PI : string * string :=
  ("PI", "Erreur statique possible, dynamique stable → PI adapté.").
Definition advice_PD : string * string :=
  ("PD", "Système oscillant → dérivée nécessaire.").
Definition advice_PID : string * string :=
  ("PID", "Cas général → PID pour précision + stabilité.").

(** The failures the specification names; the script defines none of them. *)
Definition IndeterminateRecommendation : exn := Exn "IndeterminateRecommendation".
Definition InvalidGains : exn := Exn "InvalidGains".
Definition UnsupportedSymbolicForm : exn := Exn "UnsupportedSymbolicForm".

(** Ascending real part, ties broken by ascending imaginary part. *)
Definition pole_leb (a b : complex) : bool :=
  (re a <? re b)%float || ((re a =? re b)%float && (im a <=? im b)%float).

Fixpoint sorted_poles (ps : list complex) : bool :=
  match ps with
  | [] => true
  | a :: rest =>
      match rest with
      | [] => true
      | b :: _ => pole_leb a b && sorted_poles rest
      end
  end.

(** Two runs agree when both raise the same exception or both return and
    the assigned names hold the same objects. *)
Definition same_run (a b : outcome (gmap string object)) : Prop :=
  match a, b with
  | Returned ga, Returned gb => outputs ga = outputs gb
  | Raised ea, Raised eb => ea = eb
  | _, _ => False
  end.

(** What [tf_to_sympy] makes of one coefficient [c]: [0 + c * s**0]. *)
Definition constant_term {A} `{PyNum A} (s : expr A) (c : A) : expr A :=
  Add (Number zero) (Mul (Number c) (Pow s 0)).

(** [x ** n] by repeated multiplication. *)
Fixpoint power {A} `{PyNum A} (x : A) (n : nat) : A :=
  match n with
  | O => one
  | S n' => mul x (power x n')
  end.


(** An integral left unevaluated, and a value that is one. *)
Definition unevaluated {A} (v : value A) : bool :=
  match v with
  | Scalar (Integral _ _) => true
  | _ => false
  end.

(* ===================================================================== *)
(** ** Sample library answers                                             *)
(* ===================================================================== *)

Module Sample.

(** The default system of the form: [G(s) = 1 / (s^2 + 2 s + 1)]. *)
Definition system : TransferFunction float := tf [1%float] [1%float; 2%float; 1%float].

(** A simplifier that finds nothing to simplify. *)
Definition simplify {A} (v : value A) : outcome (value A) := Returned v.

(** A stand-in integrator for the examples below: whatever it is asked, it
    hands the integral back unevaluated.  (SymPy itself integrates the
    rational functions used below in closed form.) *)
Definition integrate {A} (v : value A) (x : expr A) : outcome (value A) :=
  match v with
  | Scalar e => Returned (Scalar (Integral e x))
  | Array es => Returned (Array (map (fun e => Integral e x) es))
  end.

(** A stand-in integrator that gives up with an exception. *)
Definition integrate_fails {A} (e : exn) (v : value A) (x : expr A)
  : outcome (value A) := Raised e.

(** A differentiator whose answer does not matter here. *)
Definition diff {A} `{PyNum A} (v : value A) (x : expr A) : outcome (value A) :=
  Returned (Scalar (Number zero)).

(** Step metrics: one record per rung of the ladder, one without the
    overshoot entry, one whose entries are NaN. *)
Definition metrics (overshoot settling : float) : gmap string float :=
  <["Overshoot" := overshoot]> (<["SettlingTime" := settling]> ∅).
Definition metrics_without_overshoot : gmap string float :=
  <["SettlingTime" := 1%float]> ∅.

Definition step_info (info : gmap string float) (sys : TransferFunction float)
  : outcome (gmap string float) := Returned info.

(** An answer of the root finder for [s^2 + 1]: the conjugate pair, the root
    with positive imaginary part first. *)
Definition conjugate_pair : list complex :=
  [Complex 0%float 1%float; Complex 0%float (-1)%float].

Definition roots (ps : list complex) (sys : TransferFunction float)
  : outcome (list complex) := Returned ps.

Definition no_attribute {V} (sys : TransferFunction float) : outcome V :=
  Raised (Exn "AttributeError").

Definition step_response (sys : TransferFunction float)
  : outcome (list float * list float) :=
  Returned ([0%float; 1%float], [0%float; 1%float]).

End Sample.

(* ===================================================================== *)
(** ** block_diagram                                                      *)
(* ===================================================================== *)

Module Graphviz.

(** The body of a [graphviz.Digraph]: its statements in the order in which
    [attr], [node] and [edge] were called. *)
Inductive statement : Type :=
| GraphAttr (attrs : list (string * string))
| Node (name label : string)
| Edge (tail head : string) (attrs : list (string * string)).

Definition attr (attrs : list (string * string)) (dot : list statement)
  : list statement := dot ++ [GraphAttr attrs].
Definition node (name label : string) (dot : list statement)
  : list statement := dot ++ [Node name label].
Definition edge (tail head : string) (attrs : list (string * string))
    (dot : list statement) : list statement := dot ++ [Edge tail head attrs].

Definition node_names (dot : list statement) : list string :=
  flat_map (fun st => match st with Node name _ => [name] | _ => [] end) dot.

Definition edges (dot : list statement) : list (string * string) :=
  flat_map (fun st => match st with Edge t h _ => [(t, h)] | _ => [] end) dot.

Definition plain_edges (dot : list statement) : list (string * string) :=
  flat_map (fun st => match st with Edge t h [] => [(t, h)] | _ => [] end) dot.

Definition attributed_edges (dot : list statement)
  : list (string * string * list (string * string)) :=
  flat_map (fun st => match st with
                      | Edge t h (a :: attrs) => [(t, h, a :: attrs)]
                      | _ => []
                      end) dot.

Definition member (x : string) (xs : list string) : bool :=
  existsb (String.eqb x) xs.

Fixpoint distinct (xs : list string) : bool :=
  match xs with
  | [] => true
  | x :: rest => negb (member x rest) && distinct rest
  end.

(** Every edge joins two declared nodes. *)
Definition endpoints_declared (dot : list statement) : bool :=
  forallb (fun e => member (fst e) (node_names dot) && member (snd e) (node_names dot))
          (edges dot).

(** The nodes reached from [frontier] in at most [fuel] steps along the
    edges. *)
Fixpoint reach (fuel : nat) (es : list (string * string)) (frontier : list string)
  : list string :=
  match fuel with
  | O => frontier
  | S fuel' =>
      let next := flat_map (fun n => map snd (filter (fun e => String.eqb (fst e) n) es))
                           frontier in
      reach fuel' es (frontier ++ filter (fun n => negb (member n frontier)) next)
  end.

Definition reachable (dot : list statement) (from to : string) : bool :=
  member to (reach (length (node_names dot)) (edges dot) [from]).

End Graphviz.

Definition block_diagram : list Graphviz.statement :=
  let dot := [] in
  let dot := Graphviz.attr [("rankdir", "LR"); ("nodesep", "1.0"); ("ranksep", "1.0")] dot in
  let dot := Graphviz.node "in" "Entrée" dot in
  let dot := Graphviz.node "sum" "Σ" dot in
  let dot := Graphviz.node "pid" "Régulateur PID" dot in
  let dot := Graphviz.node "sys" "G(s)" dot in
  let dot := Graphviz.node "out" "Sortie" dot in
  let dot := Graphviz.edge "in" "sum" [] dot in
  let dot := Graphviz.edge "sum" "pid" [] dot in
  let dot := Graphviz.edge "pid" "sys" [] dot in
  let dot := Graphviz.edge "sys" "out" [] dot in
  let dot := Graphviz.edge "out" "sum" [("label", "-"); ("style", "dashed")] dot in
  dot.

(* ===================================================================== *)
(** ** More vocabulary                                                    *)
(* ===================================================================== *)

(** The value of a polynomial expression when every symbol is given the
    value [x]; quotients and integrals have none. *)
Fixpoint eval_poly {A} `{PyNum A} (x : A) (e : expr A) : option A :=
  match e with
  | Number c => Some c
  | Symbol _ => Some x
  | Add a b =>
      match eval_poly x a, eval_poly x b with
      | Some u, Some v => Some (add u v)
      | _, _ => None
      end
  | Mul a b =>
      match eval_poly x a, eval_poly x b with
      | Some u, Some v => Some (mul u v)
      | _, _ => None
      end
  | Pow a n =>
      match eval_poly x a with
      | Some u => Some (power u n)
      | None => None
      end
  | Div _ _ | Integral _ _ => None
  end.

(** The ladder of [conseil_regulateur] on an overshoot and a settling
    time. *)
Definition ladder (overshoot settling : float) : string * string :=
  if (overshoot <? 1)%float && (settling <? 2)%float then advice_P
  else if (overshoot <? 10)%float then advice_PI
  else if (20 <? overshoot)%float then advice_PD
  else advice_PID.

(** Two array lengths NumPy can combine element by element. *)
Definition broadcastable (n m : nat) : bool :=
  Nat.eqb n m || Nat.eqb n 1 || Nat.eqb m 1.

Module SampleInput.

(** A stand-in for [float] that knows a few spellings and, like [float],
    refuses the empty string. *)
Definition py_float (text : string) : outcome float :=
  if String.eqb text "1" then Returned 1%float
  else if String.eqb text "2" then Returned 2%float
  else if String.eqb text "0.5" then Returned 0.5%float
  else Raised (Exn "ValueError").

End SampleInput.

(* ===================================================================== *)
(** * Properties                                                          *)
(* ===================================================================== *)

(** ** Exact polynomial arithmetic *)

Section Exact.
Context {A : Type} `{PyNum A}.
Hypothesis exact : semi_ring_theory zero one add mul (@eq A).
Add Ring exact_ring : exact.

Local Infix "+" := add.
Local Infix "*" := mul.


Lemma horner_from (x : A) (p : list A) (a : A) :
  fold_left (fun acc c => acc * x + c) p a
  = a * power x (length p) + polyval p x.
Proof using exact.
  unfold polyval. revert a.
  induction p as [|c p IH]; intros a; simpl.
  - ring.
  - rewrite (IH (a * x + c)), (IH (zero * x + c)). ring.
Qed.

Lemma polyval_cons (x c : A) (p : list A) :
  polyval (c :: p) x = c * power x (length p) + polyval p x.
Proof using exact.
  unfold polyval at 1. simpl. rewrite horner_from. ring.
Qed.










(** Adding a sequence of zeros that is not longer changes nothing. *)
Lemma zip_add_zeros_r (p : list A) :
  zip_with add p (repeat zero (length p)) = p.
Proof using exact.
  induction p as [|c p IH]; simpl; [reflexivity|].
  rewrite IH. f_equal. ring.
Qed.


Lemma polyadd_nil_r (p : list A) : polyadd p [] = p.
Proof using exact.
  unfold polyadd, pad. simpl.
  rewrite Nat.max_0_r, Nat.sub_diag, Nat.sub_0_r, app_nil_r. simpl.
  apply zip_add_zeros_r.
Qed.










End Exact.

(** The exact integers satisfy the laws above. *)
Lemma Z_exact : semi_ring_theory (@zero Z _) one add mul (@eq Z).
Proof.
  constructor; simpl; intros; lia.
Qed.

(** ** The constructor: validation and truncation *)

Section Truncation.
Context {A : Type} `{PyNum A} `{PyTruth A}.













End Truncation.

(** The default system of the form is stored as it is typed. *)
Lemma default_system_constructed :
  construct [1%float] [1%float; 2%float; 1%float] = Returned Sample.system.
Proof. vm_compute. reflexivity. Qed.

Section ExactLoop.
Context {A : Type} `{PyNum A} `{PyTruth A}.
Hypothesis exact : semi_ring_theory zero one add mul (@eq A).
Hypothesis falsy_zero : forall x : A, falsy x = true <-> x = zero.
Hypothesis one_not_zero : (one : A) <> zero.
Add Ring exact_loop_ring : exact.


Lemma zero_falsy : falsy (zero : A) = true.
Proof using falsy_zero. apply falsy_zero. reflexivity. Qed.


Lemma strip_zeros (n : nat) (p : list A) : strip (repeat zero n ++ p)%list = strip p.
Proof using falsy_zero.
  induction n as [|n IH]; simpl; [reflexivity|]. rewrite zero_falsy. exact IH.
Qed.
























End ExactLoop.



(** ** conseil_regulateur *)

Section AdvisorProperties.
Variable control_poles : TransferFunction float -> outcome (list complex).
Variable control_pole : TransferFunction float -> outcome (list complex).
Variable control_step_info : TransferFunction float -> outcome (gmap string float).

Local Abbreviation advise := (conseil_regulateur control_poles control_pole control_step_info).

(** Once the poles and the metrics are there, the advice is the ladder on
    the two values read from the metrics. *)
Lemma conseil_regulateur_unfold sys ps info :
  poles control_poles control_pole sys = Returned ps ->
  control_step_info sys = Returned info ->
  advise sys =
    let overshoot := dict_get info "Overshoot" 0%float in
    let settling := dict_get info "SettlingTime" 0%float in
    if (overshoot <? 1)%float && (settling <? 2)%float then Returned advice_P
    else if (overshoot <? 10)%float then Returned advice_PI
    else if (20 <? overshoot)%float then Returned advice_PD
    else Returned advice_PID.
Proof.
  intros Hps Hinfo. unfold conseil_regulateur.
  rewrite Hps. simpl. rewrite Hinfo. reflexivity.
Qed.

Lemma dict_get_some {V} (d : gmap string V) key dflt v :
  d !! key = Some v -> dict_get d key dflt = v.
Proof. intros Hv. unfold dict_get. rewrite Hv. reflexivity. Qed.

Lemma dict_get_none {V} (d : gmap string V) key dflt :
  d !! key = None -> dict_get d key dflt = dflt.
Proof. intros Hv. unfold dict_get. rewrite Hv. reflexivity. Qed.

(** C1. Whenever the library delivers the poles and the step metrics, the
    advisor walks its ladder in the stated order on the overshoot and the
    settling time read from the metrics: P when overshoot < 1 and settling
    < 2; otherwise PI when overshoot < 10; otherwise PD when overshoot > 20;
    otherwise PID; each with its fixed rationale.  In particular
    (0.5, 1) gives P, (5, 3) gives PI, overshoot 25 gives PD and (15, 3)
    gives PID. *)
Theorem conseil_regulateur_ladder sys ps info :
  poles control_poles control_pole sys = Returned ps ->
  control_step_info sys = Returned info ->
  let overshoot := dict_get info "Overshoot" 0%float in
  let settling := dict_get info "SettlingTime" 0%float in
  let first_rung := (overshoot <? 1)%float = true /\ (settling <? 2)%float = true in
  (first_rung -> advise sys = Returned advice_P)
  /\ (~ first_rung -> (overshoot <? 10)%float = true ->
      advise sys = Returned advice_PI)
  /\ (~ first_rung -> (overshoot <? 10)%float = false ->
      (20 <? overshoot)%float = true ->
      advise sys = Returned advice_PD)
  /\ (~ first_rung -> (overshoot <? 10)%float = false ->
      (20 <? overshoot)%float = false ->
      advise sys = Returned advice_PID)
  /\ (info !! "Overshoot" = Some 0.5%float -> info !! "SettlingTime" = Some 1%float ->
      advise sys = Returned advice_P)
  /\ (info !! "Overshoot" = Some 5%float -> info !! "SettlingTime" = Some 3%float ->
      advise sys = Returned advice_PI)
  /\ (info !! "Overshoot" = Some 25%float ->
      advise sys = Returned advice_PD)
  /\ (info !! "Overshoot" = Some 15%float -> info !! "SettlingTime" = Some 3%float ->
      advise sys = Returned advice_PID).
Proof.
  intros Hps Hinfo overshoot settling first_rung.
  rewrite (conseil_regulateur_unfold sys ps info Hps Hinfo).
  fold overshoot settling. cbv zeta.
  repeat split.
  - intros [Ho Hs]. rewrite Ho, Hs. reflexivity.
  - intros Hn Ho. destruct (overshoot <? 1)%float eqn:H1;
      destruct (settling <? 2)%float eqn:H2; simpl; rewrite ?Ho; try reflexivity.
    exfalso. apply Hn. split; reflexivity.
  - intros Hn Ho Hd. destruct (overshoot <? 1)%float eqn:H1;
      destruct (settling <? 2)%float eqn:H2; simpl; rewrite ?Ho, ?Hd; try reflexivity.
    exfalso. apply Hn. split; reflexivity.
  - intros Hn Ho Hd. destruct (overshoot <? 1)%float eqn:H1;
      destruct (settling <? 2)%float eqn:H2; simpl; rewrite ?Ho, ?Hd; try reflexivity.
    exfalso. apply Hn. split; reflexivity.
  - intros Ho Hs. subst overshoot settling.
    rewrite (dict_get_some _ _ _ _ Ho), (dict_get_some _ _ _ _ Hs). reflexivity.
  - intros Ho Hs. subst overshoot settling.
    rewrite (dict_get_some _ _ _ _ Ho), (dict_get_some _ _ _ _ Hs). reflexivity.
  - intros Ho. subst overshoot.
    rewrite (dict_get_some _ _ _ _ Ho).
    replace (25 <? 1)%float with false by reflexivity.
    replace (25 <? 10)%float with false by reflexivity.
    replace (20 <? 25)%float with true by reflexivity.
    reflexivity.
  - intros Ho Hs. subst overshoot settling.
    rewrite (dict_get_some _ _ _ _ Ho), (dict_get_some _ _ _ _ Hs). reflexivity.
Qed.

End AdvisorProperties.

Lemma conseil_regulateur_ladder_witness :
  let info := Sample.metrics 0.5%float 1%float in
  poles (Sample.roots []) (Sample.roots []) Sample.system = Returned []
  /\ Sample.step_info info Sample.system = Returned info
  /\ conseil_regulateur (Sample.roots []) (Sample.roots []) (Sample.step_info info)
       Sample.system = Returned advice_P.
Proof.
  intros info.
  split; [reflexivity|]. split; [reflexivity|].
  destruct (conseil_regulateur_ladder (Sample.roots []) (Sample.roots [])
              (Sample.step_info info) Sample.system [] info eq_refl eq_refl)
    as (Hladder & _).
  apply Hladder. split; vm_compute; reflexivity.
Defined.

(** C2 (counterexample). A metrics record without an overshoot entry does
    not make the advisor fail: it answers P. *)
Lemma conseil_regulateur_missing_overshoot_counterexample :
  let info := Sample.metrics_without_overshoot in
  let advice := conseil_regulateur (Sample.roots []) (Sample.roots [])
                  (Sample.step_info info) Sample.system in
  info !! "Overshoot" = None
  /\ advice = Returned advice_P
  /\ advice <> Raised IndeterminateRecommendation.
Proof.
  vm_compute. repeat split; discriminate.
Qed.

(** C2 (amended). When the metrics record holds no overshoot entry the
    advisor takes 0 for the overshoot and still returns a recommendation:
    P when the settling time (0 if absent) is below 2, PI otherwise.  When
    the overshoot is NaN every comparison fails and the answer is PID.  In
    neither case does it fail with IndeterminateRecommendation. *)
Theorem conseil_regulateur_undefined_overshoot
    (control_poles control_pole : TransferFunction float -> outcome (list complex))
    (control_step_info : TransferFunction float -> outcome (gmap string float))
    sys ps info :
  poles control_poles control_pole sys = Returned ps ->
  control_step_info sys = Returned info ->
  let advice := conseil_regulateur control_poles control_pole control_step_info sys in
  (info !! "Overshoot" = None ->
     advice = Returned (if (dict_get info "SettlingTime" 0 <? 2)%float
                        then advice_P else advice_PI)
     /\ advice <> Raised IndeterminateRecommendation)
  /\ (info !! "Overshoot" = Some nan ->
     advice = Returned advice_PID
     /\ advice <> Raised IndeterminateRecommendation).
Proof.
  intros Hps Hinfo advice. subst advice.
  rewrite (conseil_regulateur_unfold _ _ _ sys ps info Hps Hinfo). cbv zeta.
  split; intros Ho.
  - rewrite (dict_get_none _ _ _ Ho).
    replace (0 <? 1)%float with true by reflexivity.
    replace (0 <? 10)%float with true by reflexivity.
    simpl. destruct (dict_get info "SettlingTime" 0 <? 2)%float;
      split; [reflexivity|discriminate|reflexivity|discriminate].
  - rewrite (dict_get_some _ _ _ _ Ho).
    replace (nan <? 1)%float with false by reflexivity.
    replace (nan <? 10)%float with false by reflexivity.
    replace (20 <? nan)%float with false by reflexivity.
    simpl. split; [reflexivity|discriminate].
Qed.

Lemma conseil_regulateur_undefined_overshoot_witness :
  let info := Sample.metrics_without_overshoot in
  poles Sample.no_attribute (Sample.roots []) Sample.system = Returned []
  /\ Sample.step_info info Sample.system = Returned info
  /\ info !! "Overshoot" = None
  /\ conseil_regulateur Sample.no_attribute (Sample.roots [])
       (Sample.step_info info) Sample.system = Returned advice_P.
Proof.
  intros info.
  split; [reflexivity|]. split; [reflexivity|]. split; [reflexivity|].
  destruct (conseil_regulateur_undefined_overshoot Sample.no_attribute
              (Sample.roots []) (Sample.step_info info) Sample.system [] info
              eq_refl eq_refl) as (Hmissing & _).
  destruct (Hmissing eq_refl) as (Hadvice & _).
  exact Hadvice.
Defined.

(** ** create_pid *)

(** A binary64 number that compares equal to zero is one of the two zeros,
    so it is finite. *)
Lemma falsy_is_finite (x : float) : falsy x = true -> is_finite x = true.
Proof.
  unfold falsy, float_truth, is_finite, is_nan, is_infinity.
  rewrite !FloatAxioms.eqb_spec, FloatAxioms.abs_spec.
  destruct (Prim2SF x) as [s|s| |s m e]; vm_compute; try congruence.
  all: destruct s; vm_compute; congruence.
Qed.

(** C3 (counterexample). With Kp = 1, Ki = 1, Kd = 0 the system holds the
    numerator [1, 1], not [0, 1, 1]: the constructor removes the leading
    zero.  With three zero gains it holds [0] over [1], not [0, 0, 0] over
    [1, 0]. *)
Lemma create_pid_leading_zero_counterexample :
  (exists pid, create_pid 1%float 1%float 0%float = Returned pid
     /\ num_coeffs pid = [1%float; 1%float]
     /\ num_coeffs pid <> [0%float; 1%float; 1%float])
  /\ (exists pid, create_pid 0%float 0%float 0%float = Returned pid
        /\ den_coeffs pid = [1%float]
        /\ den_coeffs pid <> [1%float; 0%float]).
Proof.
  split; eexists; (split; [vm_compute; reflexivity|]);
    (split; [reflexivity|discriminate]).
Qed.

(** What the constructor keeps of [Kd, Kp, Ki] and [1, 0]. *)
Lemma create_pid_cases (Kp Ki Kd : float) :
  create_pid Kp Ki Kd
  = Returned (if falsy Kd then
                if falsy Kp then
                  if falsy Ki then tf [0%float] [1%float]
                  else tf [Ki] [1%float; 0%float]
                else tf [Kp; Ki] [1%float; 0%float]
              else tf [Kd; Kp; Ki] [1%float; 0%float]).
Proof.
  unfold create_pid, construct, all_zero, truncatecoeff.
  change (forallb falsy [one; zero]) with false. cbv iota.
  cbn [forallb strip].
  destruct (falsy Kd), (falsy Kp), (falsy Ki); reflexivity.
Qed.

(** C3 (amended). For all gains the synthesizer returns the system the
    constructor builds from [Kd, Kp, Ki] and [1, 0], which holds them with
    leading zeros removed: [Kd, Kp, Ki] over [1, 0] when Kd is not zero,
    [Kp, Ki] over [1, 0] when Kd is zero and Kp is not, [Ki] over [1, 0]
    when only Ki is not zero, and [0] over [1] when the three gains are
    zero.  With Kp = 1, Ki = 1, Kd = 0 these are [1, 1] and [1, 0], the
    transfer function (s + 1) / s. *)
Theorem create_pid_coefficients :
  (forall Kp Ki Kd : float,
     create_pid Kp Ki Kd
     = Returned (if falsy Kd then
                   if falsy Kp then
                     if falsy Ki then tf [0%float] [1%float]
                     else tf [Ki] [1%float; 0%float]
                   else tf [Kp; Ki] [1%float; 0%float]
                 else tf [Kd; Kp; Ki] [1%float; 0%float]))
  /\ create_pid 1%float 1%float 0%float
     = Returned (tf [1%float; 1%float] [1%float; 0%float])
  /\ (forall s : Z, polyval [1; 1]%Z s = (s + 1)%Z /\ polyval [1; 0]%Z s = s).
Proof.
  split; [|split].
  - exact create_pid_cases.
  - vm_compute. reflexivity.
  - intros s. unfold polyval. simpl. lia.
Qed.

(** C4 (counterexample). A NaN proportional gain is accepted: the
    synthesizer returns a system carrying it. *)
Lemma create_pid_nan_counterexample :
  is_finite nan = false
  /\ create_pid nan 1%float 1%float
     = Returned (tf [1%float; nan; 1%float] [1%float; 0%float])
  /\ create_pid nan 1%float 1%float <> Raised InvalidGains.
Proof.
  split; [reflexivity|]. split; [vm_compute; reflexivity|].
  vm_compute. discriminate.
Qed.

(** C4 (amended). A non-finite gain is not rejected: for every gain triple
    in which at least one gain is NaN or infinite, the synthesizer does not
    fail with InvalidGains but constructs a system, and a non-finite
    coefficient is among its numerator coefficients.  It succeeds on every
    other triple as well, finite negative gains included. *)
Theorem create_pid_never_rejects (Kp Ki Kd : float) :
  exists pid, create_pid Kp Ki Kd = Returned pid
    /\ create_pid Kp Ki Kd <> Raised InvalidGains
    /\ (is_finite Kp && is_finite Ki && is_finite Kd = false ->
        forallb is_finite (num_coeffs pid) = false).
Proof.
  rewrite create_pid_cases. eexists. split; [reflexivity|].
  split; [discriminate|].
  intros Hnf.
  destruct (falsy Kd) eqn:Hd; [apply falsy_is_finite in Hd|];
    (destruct (falsy Kp) eqn:Hp; [apply falsy_is_finite in Hp|]);
    (destruct (falsy Ki) eqn:Hi; [apply falsy_is_finite in Hi|]);
    cbn [num_coeffs forallb];
    destruct (is_finite Kp), (is_finite Ki), (is_finite Kd);
    simpl in *; congruence.
Qed.

Lemma create_pid_never_rejects_witness :
  is_finite 1%float && is_finite infinity && is_finite (-2)%float = false
  /\ exists pid, create_pid 1%float infinity (-2)%float = Returned pid
       /\ forallb is_finite (num_coeffs pid) = false.
Proof.
  split; [reflexivity|].
  destruct (create_pid_never_rejects 1%float infinity (-2)%float)
    as (pid & Hpid & _ & Hcarries).
  exists pid. split; [exact Hpid|]. apply Hcarries. reflexivity.
Defined.

(** ** closed_loop *)




(** ** poles *)

(** C6 (counterexample). When the root finder reports the conjugate pair of
    [s^2 + 1] with the positive imaginary part first, the script keeps that
    order: the sequence is not sorted by (real, imaginary). *)
Lemma poles_unsorted_counterexample :
  let system := tf [1%float] [1%float; 0%float; 1%float] in
  poles (Sample.roots Sample.conjugate_pair) Sample.no_attribute system
  = Returned Sample.conjugate_pair
  /\ sorted_poles Sample.conjugate_pair = false.
Proof.
  split; reflexivity.
Qed.

(** C6 (amended). The pole sequence is the one the library's root finder
    reports, in the library's order: what [control.poles] returns, or, when
    that call raises, whatever [control.pole] does.  The script applies no
    sorting of its own. *)
Theorem poles_as_reported
    (control_poles control_pole : TransferFunction float -> outcome (list complex))
    (sys : TransferFunction float) :
  (forall ps, control_poles sys = Returned ps ->
     poles control_poles control_pole sys = Returned ps)
  /\ (forall e, control_poles sys = Raised e ->
     poles control_poles control_pole sys = control_pole sys).
Proof.
  unfold poles, try_except. split.
  - intros ps Hps. rewrite Hps. reflexivity.
  - intros e He. rewrite He. reflexivity.
Qed.

Lemma poles_as_reported_witness :
  Sample.roots Sample.conjugate_pair Sample.system = Returned Sample.conjugate_pair
  /\ poles (Sample.roots Sample.conjugate_pair) Sample.no_attribute Sample.system
     = Returned Sample.conjugate_pair.
Proof.
  split; [reflexivity|].
  apply (poles_as_reported (Sample.roots Sample.conjugate_pair) Sample.no_attribute
           Sample.system).
  reflexivity.
Defined.

(** ** The script *)

Section ScriptProperties.
Variable py_float : string -> outcome float.
Variable simplify : value float -> outcome (value float).
Variable integrate : value float -> expr float -> outcome (value float).
Variable diff : value float -> expr float -> outcome (value float).
Variable control_poles : TransferFunction float -> outcome (list complex).
Variable control_pole : TransferFunction float -> outcome (list complex).
Variable control_step_info : TransferFunction float -> outcome (gmap string float).
Variable control_step_response :
  TransferFunction float -> outcome (list float * list float).

Local Abbreviation run :=
  (script py_float simplify integrate diff control_poles control_pole
     control_step_info control_step_response).
Local Abbreviation pure_run :=
  (compute py_float simplify integrate diff control_poles control_pole
     control_step_info control_step_response).

Lemma load_insert (g : gmap string object) name o :
  load (<[name := o]> g) name = Returned o.
Proof. unfold load. rewrite lookup_insert_eq. reflexivity. Qed.

Lemma load_insert_ne (g : gmap string object) name name' o :
  name' <> name -> load (<[name' := o]> g) name = load g name.
Proof.
  intros Hne. unfold load. rewrite lookup_insert_ne by exact Hne. reflexivity.
Qed.

Ltac settle_load :=
  match goal with
  | |- context [load (<[?k := ?o]> ?m) ?k] => rewrite (load_insert m k o)
  | |- context [load (<[?k' := ?o]> ?m) ?k] =>
      rewrite (load_insert_ne m k k' o) by discriminate
  end.

Ltac settle_loads :=
  repeat (settle_load; cbn beta iota delta [as_list as_system as_float as_str]).

Ltac next_call :=
  match goal with
  | |- match ?c with Returned _ => _ | Raised _ => _ end = _ =>
      destruct c as [?|?]; [|reflexivity]
  | |- match ?p with pair _ _ => _ end = _ => destruct p
  end.

(** Every name the script reads was assigned earlier in the same run, so
    a run is the computation on the inputs followed by the assignments. *)
Lemma script_compute inp g :
  run inp g = r ← pure_run inp; Returned (bindings inp r ∪ g).
Proof.
  unfold script, compute, mbind, outcome_bind, Py.bind.
  repeat (settle_loads; next_call).
  settle_loads.
  unfold bindings. cbn beta iota zeta delta [r_num r_den r_system r_Gs_sym r_Gs
    r_integ r_deriv r_poles r_step_info r_t r_y r_reg_type r_explanation r_pid
    r_closed_loop r_t2 r_y2].
  rewrite <- !insert_union_l, (left_id_L ∅ (∪)). reflexivity.
Qed.

Lemma bindings_assigned inp r name :
  name ∈ assigned -> is_Some (bindings inp r !! name).
Proof.
  unfold assigned. intros Hin.
  repeat (apply elem_of_cons in Hin as [->|Hin];
          [unfold bindings;
           repeat (rewrite lookup_insert_ne by discriminate);
           rewrite lookup_insert_eq; eexists; reflexivity|]).
  apply elem_of_nil in Hin. destruct Hin.
Qed.

Lemma outputs_bindings inp r g :
  outputs (bindings inp r ∪ g) = outputs (bindings inp r).
Proof.
  unfold outputs. apply map_ext_in. intros name Hin.
  apply lookup_union_l', bindings_assigned, list_elem_of_In, Hin.
Qed.

(** C9. Two runs of the script on the same inputs agree, whatever the
    module namespace held before each of them: either both raise the same
    exception or both return and every assigned name holds the same object
    (same symbolic expressions, same pole sequence in the same order, same
    recommendation).  A second run started from the namespace the first one
    left behind ends in that very namespace. *)
Theorem script_two_runs inp g g' :
  same_run (run inp g) (run inp g')
  /\ (forall g1, run inp g = Returned g1 -> run inp g1 = Returned g1).
Proof.
  rewrite (script_compute inp g), (script_compute inp g').
  unfold mbind, outcome_bind, Py.bind.
  destruct (pure_run inp) as [r|e] eqn:Hrun.
  - split.
    + simpl. rewrite !outputs_bindings. reflexivity.
    + intros g1 Hg1. injection Hg1 as <-.
      rewrite script_compute, Hrun. simpl.
      rewrite (assoc_L (∪)), (idemp_L (∪)). reflexivity.
  - split; [reflexivity|]. intros g1 Hg1. discriminate.
Qed.

End ScriptProperties.

Lemma script_two_runs_witness :
  let run := script SampleInput.py_float Sample.simplify Sample.integrate Sample.diff
               (Sample.roots []) Sample.no_attribute
               (Sample.step_info (Sample.metrics 0.5%float 1%float))
               Sample.step_response in
  let inp := Inputs 0 1 "1" "1,2,1" 1%float 1%float 0.5%float in
  exists g1, run inp ∅ = Returned g1 /\ run inp g1 = Returned g1.
Proof.
  intros run inp.
  assert (Hfirst : exists g1, run inp ∅ = Returned g1)
    by (vm_compute; eexists; reflexivity).
  destruct Hfirst as [g1 Hfirst]. exists g1. split; [exact Hfirst|].
  exact (proj2 (script_two_runs SampleInput.py_float Sample.simplify Sample.integrate
                  Sample.diff (Sample.roots []) Sample.no_attribute
                  (Sample.step_info (Sample.metrics 0.5%float 1%float))
                  Sample.step_response inp ∅ ∅) g1 Hfirst).
Defined.

(** ** tf_to_sympy and symbolic_analysis *)

Section SymbolicProperties.
Context {A : Type} `{PyNum A}.
Variable simplify : value A -> outcome (value A).

(** [sys.num[0]] is the list of the arrays of output 0, one per input; for
    a single-input system the sum of lines 17-18 has one term, the whole
    coefficient array times [s**0]. *)
Lemma weighted_sum_single (c : list A) (s : expr A) :
  weighted_sum [c] s = Returned (Array (map (constant_term s) c)).
Proof.
  unfold weighted_sum. simpl. rewrite !map_map. reflexivity.
Qed.

Lemma tf_to_sympy_unfold (sys : TransferFunction A) :
  tf_to_sympy simplify sys =
    ratio ← broadcast Div
              (Array (map (constant_term (Symbol "s")) (num_coeffs sys)))
              (Array (map (constant_term (Symbol "s")) (den_coeffs sys)));
    simplify ratio.
Proof.
  unfold tf_to_sympy, Control.num, Control.den.
  change (index [[num_coeffs sys]] 0) with (Returned [num_coeffs sys]).
  change (index [[den_coeffs sys]] 0) with (Returned [den_coeffs sys]).
  unfold mbind, outcome_bind, Py.bind.
  rewrite !weighted_sum_single. reflexivity.
Qed.

Lemma degree_constant_term (s : expr A) (c : A) : degree (constant_term s c) = 0.
Proof. simpl. lia. Qed.

Lemma degrees_zero (es : list (expr A)) :
  Forall (fun e => degree e = 0) es -> foldr Nat.max 0 (map degree es) = 0.
Proof.
  induction 1 as [|e es He _ IH]; simpl; [reflexivity|].
  rewrite He, IH. reflexivity.
Qed.

Lemma quotients_degree_zero (xs ys : list (expr A)) (v : value A) :
  Forall (fun e => degree e = 0) xs ->
  Forall (fun e => degree e = 0) ys ->
  broadcast Div (Array xs) (Array ys) = Returned v ->
  is_array v = true /\ value_degree v = 0.
Proof.
  intros Hxs Hys. unfold broadcast.
  assert (Hquot : forall a b : expr A,
            degree a = 0 -> degree b = 0 -> degree (Div a b) = 0)
    by (intros a b Ha Hb; simpl; rewrite Ha, Hb; reflexivity).
  assert (Hl : forall b : expr A, degree b = 0 ->
            Forall (fun e => degree e = 0) (map (fun a => Div a b) xs)).
  { intros b Hb. apply Forall_map. eapply Forall_impl; [exact Hxs|].
    intros a Ha. apply Hquot; assumption. }
  assert (Hr : forall a : expr A, degree a = 0 ->
            Forall (fun e => degree e = 0) (map (Div a) ys)).
  { intros a Ha. apply Forall_map. eapply Forall_impl; [exact Hys|].
    intros b Hb. apply Hquot; assumption. }
  assert (Hzip : Forall (fun e => degree e = 0) (zip_with Div xs ys)).
  { clear Hl Hr. revert ys Hys. induction Hxs as [|a xs Ha _ IH]; intros ys Hys.
    - constructor.
    - destruct Hys as [|b ys Hb Hys]; [constructor|].
      constructor; [apply Hquot; assumption|apply IH; assumption]. }
  assert (Hall : forall es, Forall (fun e : expr A => degree e = 0) es ->
            is_array (Array es) = true /\ value_degree (Array es) = 0).
  { intros es Hes. split; [reflexivity|]. unfold value_degree.
    apply degrees_zero, Hes. }
  destruct (Nat.eqb (length xs) (length ys)).
  - intros [= <-]. apply Hall, Hzip.
  - destruct xs as [|a [|a' xs]].
    + destruct ys as [|b [|b' ys]]; [discriminate| |discriminate].
      intros [= <-]. apply Hall. constructor.
    + intros [= <-]. apply Hall, Hr. inversion Hxs; assumption.
    + destruct ys as [|b [|b' ys]]; [discriminate| |discriminate].
      intros [= <-]. apply Hall, Hl. inversion Hys; assumption.
Qed.

Lemma constant_terms_degree (s : expr A) (c : list A) :
  Forall (fun e => degree e = 0) (map (constant_term s) c).
Proof.
  apply Forall_map, Forall_forall. intros x _. apply degree_constant_term.
Qed.

(** What reaches [simplify] in [tf_to_sympy] is an array in which the symbol
    only occurs to the power zero. *)
Lemma tf_to_sympy_ratio (sys : TransferFunction A) :
  tf_to_sympy simplify sys = Raised (Exn "ValueError")
  \/ exists ratio, tf_to_sympy simplify sys = simplify ratio
       /\ is_array ratio = true /\ value_degree ratio = 0.
Proof.
  rewrite tf_to_sympy_unfold.
  destruct (broadcast Div _ _) as [ratio|e] eqn:Hratio.
  - right. exists ratio. split; [reflexivity|].
    eapply quotients_degree_zero; [| |exact Hratio]; apply constant_terms_degree.
  - left. unfold broadcast in Hratio.
    destruct (Nat.eqb _ _); [discriminate|].
    destruct (map _ (num_coeffs sys)) as [|a [|a' xs]];
      destruct (map _ (den_coeffs sys)) as [|b [|b' ys]];
      try discriminate; injection Hratio as <-; reflexivity.
Qed.

End SymbolicProperties.

(** C7 (the code at the default system). [tf_to_sympy] puts no coefficient
    on a power of [s]: for every system, what it hands to [simplify] is an
    array of quotients in which [s] occurs to the power zero only (or the
    division of the two arrays fails on their lengths).  For the default
    system 1 / (s^2 + 2 s + 1) that array is [1/1, 1/2, 1/1], whereas the
    denominator polynomial has degree 2; no re-expansion of the result gives
    the coefficients back. *)
Theorem tf_to_sympy_drops_powers :
  (forall (A : Type) (N : PyNum A) (simplify : value A -> outcome (value A))
          (sys : TransferFunction A),
     tf_to_sympy simplify sys = Raised (Exn "ValueError")
     \/ exists ratio, tf_to_sympy simplify sys = simplify ratio
          /\ is_array ratio = true /\ value_degree ratio = 0)
  /\ (forall simplify : value float -> outcome (value float),
        let s := Symbol "s" in
        tf_to_sympy simplify Sample.system
        = simplify (Array [Div (constant_term s 1%float) (constant_term s 1%float);
                           Div (constant_term s 1%float) (constant_term s 2%float);
                           Div (constant_term s 1%float) (constant_term s 1%float)]))
  /\ degree (Poly_as_expr (den_coeffs Sample.system) (Symbol "s")) = 2.
Proof.
  split; [|split].
  - intros A N simplify sys. apply tf_to_sympy_ratio.
  - intros simplify s. rewrite tf_to_sympy_unfold. reflexivity.
  - reflexivity.
Qed.

(** C10 (the two routes compared). Take any simplifier that answers an
    array with an array and a single expression with a single expression.
    Whenever [symbolic_analysis] returns, its first component is a single
    expression, while [tf_to_sympy] returns an array or raises on every
    system, so in particular on the one built from the same coefficients:
    the two routes never agree. *)
Theorem tf_to_sympy_is_not_symbolic_analysis
    (A : Type) (N : PyNum A)
    (simplify : value A -> outcome (value A))
    (integrate diff : value A -> expr A -> outcome (value A))
    (num den : list A) (Gs integ deriv : value A) :
  (forall v r, simplify v = Returned r -> is_array r = is_array v) ->
  symbolic_analysis simplify integrate diff num den = Returned (Gs, integ, deriv) ->
  is_array Gs = false
  /\ forall sys : TransferFunction A, tf_to_sympy simplify sys <> Returned Gs.
Proof.
  intros Hkind Hsa.
  assert (HGs : is_array Gs = false).
  { unfold symbolic_analysis, mbind, outcome_bind, Py.bind in Hsa.
    destruct (simplify (Scalar _)) as [g|] eqn:Hg; [|discriminate].
    destruct (integrate g _) as [p|]; [|discriminate].
    destruct (simplify p) as [i|]; [|discriminate].
    destruct (diff g _) as [d|]; [|discriminate].
    destruct (simplify d) as [d'|]; [|discriminate].
    injection Hsa as <- _ _. apply (Hkind _ _ Hg). }
  split; [exact HGs|]. intros sys.
  destruct (tf_to_sympy_ratio simplify sys)
    as [Hraise|(ratio & Hratio & Harray & _)].
  - rewrite Hraise. discriminate.
  - rewrite Hratio. intros Hsame.
    apply Hkind in Hsame. congruence.
Qed.

Lemma tf_to_sympy_is_not_symbolic_analysis_witness :
  let num := [1%float] in
  let den := [1%float; 2%float; 1%float] in
  (forall v r : value float, Sample.simplify v = Returned r -> is_array r = is_array v)
  /\ exists Gs integ deriv,
       symbolic_analysis Sample.simplify Sample.integrate Sample.diff num den
       = Returned (Gs, integ, deriv)
       /\ forall sys : TransferFunction float,
            tf_to_sympy Sample.simplify sys <> Returned Gs.
Proof.
  intros num den.
  assert (Hkind : forall v r : value float,
            Sample.simplify v = Returned r -> is_array r = is_array v)
    by (intros v r [= <-]; reflexivity).
  split; [exact Hkind|].
  eexists _, _, _. split; [reflexivity|].
  apply (tf_to_sympy_is_not_symbolic_analysis float float_num Sample.simplify
           Sample.integrate Sample.diff num den _ _ _ Hkind eq_refl).
Defined.

(** C8 (counterexample). Take an integrator that finds no closed form.
    If it gives up with an exception, then whatever the coefficients
    [symbolic_analysis] fails with that very exception, not with
    UnsupportedSymbolicForm; if it hands the integral back unevaluated,
    then whatever the coefficients [symbolic_analysis] returns normally,
    with the unevaluated integral in the integral slot. *)
Lemma symbolic_analysis_no_marker_counterexample :
  let gave_up := Exn "NotImplementedError" in
  (forall num den : list float,
     symbolic_analysis Sample.simplify (Sample.integrate_fails gave_up) Sample.diff
       num den
     = Raised gave_up)
  /\ gave_up <> UnsupportedSymbolicForm
  /\ (forall num den : list float,
        exists Gs integ deriv,
          symbolic_analysis Sample.simplify Sample.integrate Sample.diff num den
          = Returned (Gs, integ, deriv)
          /\ unevaluated integ = true).
Proof.
  intros gave_up. split; [|split].
  - intros num den. reflexivity.
  - discriminate.
  - intros num den. eexists _, _, _. split; reflexivity.
Qed.

(** C8 (amended). The integration step has no UnsupportedSymbolicForm
    result of its own.  When [integrate] raises, [symbolic_analysis] raises
    the same exception, and neither G(s) nor the derivative is returned.
    When [symbolic_analysis] returns, its integral slot holds what
    [simplify] made of whatever [integrate] handed back, an unevaluated
    integral included.  And [symbolic_analysis] fails with
    UnsupportedSymbolicForm only if one of the five SymPy calls raised
    it. *)
Theorem symbolic_analysis_has_no_marker
    (A : Type) (N : PyNum A)
    (simplify : value A -> outcome (value A))
    (integrate diff : value A -> expr A -> outcome (value A))
    (num den : list A) :
  let s := Symbol "s" in
  let ratio := Scalar (Div (Poly_as_expr num s) (Poly_as_expr den s)) in
  let result := symbolic_analysis simplify integrate diff num den in
  (forall Gs e, simplify ratio = Returned Gs -> integrate Gs s = Raised e ->
     result = Raised e)
  /\ (forall Gs integ deriv, result = Returned (Gs, integ, deriv) ->
        simplify ratio = Returned Gs
        /\ exists primitive,
             integrate Gs s = Returned primitive
             /\ simplify primitive = Returned integ)
  /\ (result = Raised UnsupportedSymbolicForm ->
        simplify ratio = Raised UnsupportedSymbolicForm
        \/ exists Gs, simplify ratio = Returned Gs
             /\ (integrate Gs s = Raised UnsupportedSymbolicForm
                 \/ (exists primitive, integrate Gs s = Returned primitive
                       /\ simplify primitive = Raised UnsupportedSymbolicForm)
                 \/ diff Gs s = Raised UnsupportedSymbolicForm
                 \/ (exists derivative, diff Gs s = Returned derivative
                       /\ simplify derivative = Raised UnsupportedSymbolicForm))).
Proof.
  intros s ratio result. subst result.
  unfold symbolic_analysis, mbind, outcome_bind, Py.bind. fold s. fold ratio.
  split; [|split].
  - intros Gs e HGs Hint. rewrite HGs, Hint. reflexivity.
  - intros Gs integ deriv.
    destruct (simplify ratio) as [g|]; [|discriminate].
    destruct (integrate g s) as [p|] eqn:Hp; [|discriminate].
    destruct (simplify p) as [i|] eqn:Hi; [|discriminate].
    destruct (diff g s) as [d|]; [|discriminate].
    destruct (simplify d) as [d'|]; [|discriminate].
    intros [= <- <- <-]. split; [reflexivity|].
    exists p. split; [exact Hp|exact Hi].
  - destruct (simplify ratio) as [g|e0]; [|intros [= ->]; left; reflexivity].
    intros Hfail. right. exists g. split; [reflexivity|].
    destruct (integrate g s) as [p|e1]; [|injection Hfail as ->; left; reflexivity].
    right.
    destruct (simplify p) as [i|e2] eqn:Hp.
    + right.
      destruct (diff g s) as [d|e3]; [|injection Hfail as ->; left; reflexivity].
      right.
      destruct (simplify d) as [d'|e4] eqn:Hd; [discriminate|].
      injection Hfail as ->. exists d. split; [reflexivity|exact Hd].
    + injection Hfail as ->. left. exists p. split; [reflexivity|exact Hp].
Qed.

Lemma symbolic_analysis_has_no_marker_witness :
  let s : expr float := Symbol "s" in
  let num := [1%float] in
  let den := [1%float; 0%float] in
  let Gs := Scalar (Div (Poly_as_expr num s) (Poly_as_expr den s)) in
  let e := Exn "NotImplementedError" in
  Sample.simplify Gs = Returned Gs
  /\ Sample.integrate_fails e Gs s = Raised e
  /\ symbolic_analysis Sample.simplify (Sample.integrate_fails e) Sample.diff num den
     = Raised e.
Proof.
  intros s num den Gs e.
  split; [reflexivity|]. split; [reflexivity|].
  destruct (symbolic_analysis_has_no_marker float float_num
              Sample.simplify (Sample.integrate_fails e) Sample.diff num den)
    as (Hfail & _).
  apply (Hfail Gs e); reflexivity.
Defined.

(** ** The text fields *)

Lemma split_not_nil (sep : ascii) (s : string) : split sep s <> [].
Proof.
  induction s as [|c rest IH]; simpl; [discriminate|].
  destruct (Ascii.eqb c sep); [discriminate|].
  destruct (split sep rest); discriminate.
Qed.

Lemma length_split (sep : ascii) (s : string) :
  length (split sep s) = occurrences sep s + 1.
Proof.
  induction s as [|c rest IH]; simpl; [reflexivity|].
  destruct (Ascii.eqb c sep); simpl.
  - rewrite IH. reflexivity.
  - destruct (split sep rest) as [|piece pieces] eqn:Hs.
    + exfalso. exact (split_not_nil sep rest Hs).
    + simpl in *. exact IH.
Qed.

Lemma join_split (sep : ascii) (s : string) : join sep (split sep s) = s.
Proof.
  induction s as [|c rest IH]; simpl; [reflexivity|].
  destruct (Ascii.eqb c sep) eqn:Hc.
  - apply Ascii.eqb_eq in Hc. subst c.
    destruct (split sep rest) as [|piece pieces] eqn:Hs.
    + exfalso. exact (split_not_nil sep rest Hs).
    + change (join sep ("" :: piece :: pieces))
        with (String sep (join sep (piece :: pieces))).
      rewrite IH. reflexivity.
  - destruct (split sep rest) as [|piece pieces] eqn:Hs.
    + exfalso. exact (split_not_nil sep rest Hs).
    + destruct pieces as [|piece' pieces].
      * simpl in *. rewrite IH. reflexivity.
      * change (join sep (String c piece :: piece' :: pieces))
          with (String c (piece ++ String sep (join sep (piece' :: pieces)))).
        change (join sep (piece :: piece' :: pieces))
          with (piece ++ String sep (join sep (piece' :: pieces))) in IH.
        rewrite IH. reflexivity.
Qed.

Lemma split_pieces_clean (sep : ascii) (s : string) :
  Forall (fun piece => contains sep piece = false) (split sep s).
Proof.
  induction s as [|c rest IH]; simpl.
  - constructor; [reflexivity|constructor].
  - destruct (Ascii.eqb c sep) eqn:Hc.
    + constructor; [reflexivity|exact IH].
    + destruct (split sep rest) as [|piece pieces].
      * constructor; [|constructor]. unfold contains. simpl. rewrite Hc. reflexivity.
      * inversion IH as [|? ? Hpiece Hpieces]; subst.
        constructor; [|exact Hpieces].
        unfold contains in *. simpl. rewrite Hc. exact Hpiece.
Qed.

Lemma traverse_Forall2 {A B} (f : A -> outcome B) (xs : list A) (ys : list B) :
  traverse f xs = Returned ys -> Forall2 (fun x y => f x = Returned y) xs ys.
Proof.
  revert ys. induction xs as [|x xs IH]; intros ys; simpl.
  - intros [= <-]. constructor.
  - unfold mbind, outcome_bind, Py.bind.
    destruct (f x) as [y|] eqn:Hy; [|discriminate].
    destruct (traverse f xs) as [ys'|]; [|discriminate].
    intros [= <-]. constructor; [exact Hy|apply IH; reflexivity].
Qed.

Lemma traverse_raises {A B} (f : A -> outcome B) (xs : list A) (x : A) (e : exn) :
  In x xs -> f x = Raised e -> exists e', traverse f xs = Raised e'.
Proof.
  intros Hin Hx. induction xs as [|x' xs IH]; [destruct Hin|].
  simpl. unfold mbind, outcome_bind, Py.bind.
  destruct (f x') as [y|e'] eqn:Hy; [|eexists; reflexivity].
  destruct Hin as [->|Hin]; [congruence|].
  destruct (IH Hin) as [e' He']. rewrite He'. eexists; reflexivity.
Qed.

Lemma split_app (sep : ascii) (s t : string) :
  split sep (s ++ String sep t) = (split sep s ++ split sep t)%list.
Proof.
  induction s as [|c rest IH]; simpl.
  - rewrite Ascii.eqb_refl. reflexivity.
  - destruct (Ascii.eqb c sep); [rewrite IH; reflexivity|].
    rewrite IH. destruct (split sep rest) as [|piece pieces] eqn:Hs.
    + exfalso. exact (split_not_nil sep rest Hs).
    + reflexivity.
Qed.

Section TextInputProperties.
Variable py_float : string -> outcome float.

(** X1. A text field that parses gives one coefficient per piece: as many
    coefficients as the text has commas, plus one.  In particular the
    parsed list is never empty. *)
Theorem parse_coefficients_length (raw : string) (coeffs : list float) :
  parse_coefficients py_float raw = Returned coeffs ->
  length coeffs = occurrences ","%char raw + 1 /\ coeffs <> [].
Proof.
  intros Hparse. apply traverse_Forall2, Forall2_length in Hparse.
  rewrite length_split in Hparse.
  split; [symmetry; exact Hparse|].
  intros ->. simpl in Hparse. lia.
Qed.

(** X2. A text field that parses is the comma-separated list of the
    spellings of its coefficients: there are pieces without a comma, one
    per coefficient and in the same order, each of which [float] turns into
    that coefficient, and joining them with commas gives the text back. *)
Theorem parse_coefficients_pieces (raw : string) (coeffs : list float) :
  parse_coefficients py_float raw = Returned coeffs ->
  exists pieces,
    join ","%char pieces = raw
    /\ Forall (fun piece => contains ","%char piece = false) pieces
    /\ Forall2 (fun piece c => py_float piece = Returned c) pieces coeffs.
Proof.
  intros Hparse. exists (split ","%char raw).
  split; [apply join_split|]. split; [apply split_pieces_clean|].
  apply traverse_Forall2, Hparse.
Qed.

(** X3. When [float] refuses the empty string, so does the parsing of an
    empty field and of a field that starts with a comma (with the same
    exception), and a field that ends with a comma never parses. *)
Theorem parse_coefficients_empty_piece (e : exn) :
  py_float "" = Raised e ->
  parse_coefficients py_float "" = Raised e
  /\ (forall rest, parse_coefficients py_float (String ","%char rest) = Raised e)
  /\ (forall start coeffs,
        parse_coefficients py_float (start ++ ",") <> Returned coeffs).
Proof.
  intros Hempty. unfold parse_coefficients. split; [|split].
  - simpl. rewrite Hempty. reflexivity.
  - intros rest. simpl. rewrite Hempty. reflexivity.
  - intros start coeffs Hparse.
    assert (Hin : In "" (split ","%char (start ++ ","))).
    { rewrite split_app. apply in_or_app. right. left. reflexivity. }
    destruct (traverse_raises py_float _ "" e Hin Hempty) as [e' He'].
    congruence.
Qed.

End TextInputProperties.

Lemma parse_coefficients_length_witness :
  parse_coefficients SampleInput.py_float "1,2,1" = Returned [1%float; 2%float; 1%float]
  /\ length [1%float; 2%float; 1%float] = occurrences ","%char "1,2,1" + 1.
Proof.
  split; [reflexivity|].
  apply (parse_coefficients_length SampleInput.py_float "1,2,1"). reflexivity.
Defined.

Lemma parse_coefficients_pieces_witness :
  parse_coefficients SampleInput.py_float "1,0.5" = Returned [1%float; 0.5%float]
  /\ exists pieces,
       join ","%char pieces = "1,0.5"
       /\ Forall (fun piece => contains ","%char piece = false) pieces
       /\ Forall2 (fun piece c => SampleInput.py_float piece = Returned c)
            pieces [1%float; 0.5%float].
Proof.
  split; [reflexivity|].
  apply (parse_coefficients_pieces SampleInput.py_float "1,0.5"). reflexivity.
Defined.

Lemma parse_coefficients_empty_piece_witness :
  SampleInput.py_float "" = Raised (Exn "ValueError")
  /\ parse_coefficients SampleInput.py_float "" = Raised (Exn "ValueError").
Proof.
  split; [reflexivity|].
  apply (parse_coefficients_empty_piece SampleInput.py_float (Exn "ValueError")).
  reflexivity.
Defined.

(** ** conseil_regulateur, further *)

Section AdvisorFurther.
Variable control_poles : TransferFunction float -> outcome (list complex).
Variable control_pole : TransferFunction float -> outcome (list complex).
Variable control_step_info : TransferFunction float -> outcome (gmap string float).

Local Abbreviation advise := (conseil_regulateur control_poles control_pole control_step_info).

Lemma conseil_regulateur_ladder_eq sys ps info :
  poles control_poles control_pole sys = Returned ps ->
  control_step_info sys = Returned info ->
  advise sys = Returned (ladder (dict_get info "Overshoot" 0%float)
                                (dict_get info "SettlingTime" 0%float)).
Proof.
  intros Hps Hinfo.
  rewrite (conseil_regulateur_unfold _ _ _ sys ps info Hps Hinfo).
  unfold ladder. cbv zeta.
  generalize (dict_get info "Overshoot" 0%float) as o.
  generalize (dict_get info "SettlingTime" 0%float) as t.
  intros t o.
  destruct (o <? 1)%float, (t <? 2)%float, (o <? 10)%float, (20 <? o)%float;
    reflexivity.
Qed.

Lemma ladder_range (o t : float) :
  ladder o t = advice_P \/ ladder o t = advice_PI
  \/ ladder o t = advice_PD \/ ladder o t = advice_PID.
Proof.
  unfold ladder.
  destruct (o <? 1)%float, (t <? 2)%float, (o <? 10)%float, (20 <? o)%float;
    simpl; auto.
Qed.

(** X4. The advisor fails exactly when the library does: with the
    exception of [control.pole] when both pole routines raise, the
    exception of [control.poles] being discarded, and otherwise with the
    exception of [control.step_info].  When it returns, the answer is one of
    the four fixed recommendations. *)
Theorem conseil_regulateur_outcome sys :
  (forall e, advise sys = Raised e <->
     ((exists e0, control_poles sys = Raised e0) /\ control_pole sys = Raised e)
     \/ ((exists ps, poles control_poles control_pole sys = Returned ps)
         /\ control_step_info sys = Raised e))
  /\ (forall advice, advise sys = Returned advice ->
        advice = advice_P \/ advice = advice_PI
        \/ advice = advice_PD \/ advice = advice_PID).
Proof.
  destruct (poles control_poles control_pole sys) as [ps|e1] eqn:Hps.
  - destruct (control_step_info sys) as [info|e2] eqn:Hinfo.
    + rewrite (conseil_regulateur_ladder_eq sys ps info Hps Hinfo). split.
      * intros e. split; [discriminate|].
        intros [[[e0 He0] He]|[_ He]]; [|discriminate].
        unfold poles, try_except in Hps. rewrite He0, He in Hps. discriminate.
      * intros advice [= <-]. apply ladder_range.
    + assert (Hadv : advise sys = Raised e2).
      { unfold conseil_regulateur, mbind, outcome_bind, Py.bind.
        rewrite Hps, Hinfo. reflexivity. }
      rewrite Hadv. split; [|discriminate].
      intros e. split.
      * intros [= <-]. right. split; [eexists; reflexivity|reflexivity].
      * intros [[[e0 He0] He]|[_ He]]; [|congruence].
        unfold poles, try_except in Hps. rewrite He0, He in Hps. discriminate.
  - assert (Hadv : advise sys = Raised e1).
    { unfold conseil_regulateur, mbind, outcome_bind, Py.bind.
      rewrite Hps. reflexivity. }
    rewrite Hadv. split; [|discriminate].
    unfold poles, try_except in Hps.
    destruct (control_poles sys) as [ps|e0]; [discriminate|].
    intros e. split.
    + intros [= <-]. left. split; [eexists; reflexivity|exact Hps].
    + intros [[_ He]|[[ps Hps'] _]]; [congruence|discriminate].
Qed.

End AdvisorFurther.

(** X5. The settling time is only consulted on the first rung: when the
    overshoot is not below 1, two metrics records with the same overshoot
    lead to the same recommendation whatever their settling times are
    (absent and NaN included). *)
Theorem conseil_regulateur_settling_unused
    (control_poles control_pole : TransferFunction float -> outcome (list complex))
    (control_step_info : TransferFunction float -> outcome (gmap string float))
    sys ps info info' :
  poles control_poles control_pole sys = Returned ps ->
  control_step_info sys = Returned info ->
  dict_get info' "Overshoot" 0%float = dict_get info "Overshoot" 0%float ->
  (dict_get info "Overshoot" 0 <? 1)%float = false ->
  conseil_regulateur control_poles control_pole control_step_info sys
  = conseil_regulateur control_poles control_pole (fun _ => Returned info') sys.
Proof.
  intros Hps Hinfo Hsame Hnot.
  rewrite (conseil_regulateur_ladder_eq _ _ _ sys ps info Hps Hinfo).
  rewrite (conseil_regulateur_ladder_eq control_poles control_pole
             (fun _ => Returned info') sys ps info' Hps eq_refl).
  rewrite Hsame. unfold ladder. rewrite Hnot. reflexivity.
Qed.

(** X6. The recommendation depends on nothing but the two metrics entries
    it reads: for any two systems and any two libraries whose pole routines
    succeed and whose metrics agree on "Overshoot" and "SettlingTime", the
    recommendations are equal.  The pole values, the system itself and every
    other metrics entry are ignored. *)
Theorem conseil_regulateur_reads_two_entries
    (control_poles control_pole control_poles' control_pole'
       : TransferFunction float -> outcome (list complex))
    (control_step_info control_step_info'
       : TransferFunction float -> outcome (gmap string float))
    sys sys' ps ps' info info' :
  poles control_poles control_pole sys = Returned ps ->
  poles control_poles' control_pole' sys' = Returned ps' ->
  control_step_info sys = Returned info ->
  control_step_info' sys' = Returned info' ->
  info !! "Overshoot" = info' !! "Overshoot" ->
  info !! "SettlingTime" = info' !! "SettlingTime" ->
  conseil_regulateur control_poles control_pole control_step_info sys
  = conseil_regulateur control_poles' control_pole' control_step_info' sys'.
Proof.
  intros Hps Hps' Hinfo Hinfo' Ho Hs.
  rewrite (conseil_regulateur_ladder_eq _ _ _ sys ps info Hps Hinfo).
  rewrite (conseil_regulateur_ladder_eq _ _ _ sys' ps' info' Hps' Hinfo').
  unfold dict_get. rewrite Ho, Hs. reflexivity.
Qed.

(** X7. At the thresholds the comparisons are strict: an overshoot of
    exactly 1 with any settling time gives PI, exactly 10 and exactly 20
    give PID, an infinite overshoot gives PD, and an overshoot of minus
    infinity gives P or PI according to the settling time. *)
Theorem conseil_regulateur_thresholds
    (control_poles control_pole : TransferFunction float -> outcome (list complex))
    (control_step_info : TransferFunction float -> outcome (gmap string float))
    sys ps info :
  poles control_poles control_pole sys = Returned ps ->
  control_step_info sys = Returned info ->
  let advice := conseil_regulateur control_poles control_pole control_step_info sys in
  (info !! "Overshoot" = Some 1%float -> advice = Returned advice_PI)
  /\ (info !! "Overshoot" = Some 10%float -> advice = Returned advice_PID)
  /\ (info !! "Overshoot" = Some 20%float -> advice = Returned advice_PID)
  /\ (info !! "Overshoot" = Some infinity -> advice = Returned advice_PD)
  /\ (info !! "Overshoot" = Some neg_infinity ->
      advice = Returned (if (dict_get info "SettlingTime" 0 <? 2)%float
                         then advice_P else advice_PI)).
Proof.
  intros Hps Hinfo advice. subst advice.
  rewrite (conseil_regulateur_ladder_eq _ _ _ sys ps info Hps Hinfo).
  unfold ladder.
  repeat split; intros Ho; rewrite (dict_get_some _ _ _ _ Ho).
  - replace (1 <? 1)%float with false by reflexivity.
    replace (1 <? 10)%float with true by reflexivity. reflexivity.
  - replace (10 <? 1)%float with false by reflexivity.
    replace (10 <? 10)%float with false by reflexivity.
    replace (20 <? 10)%float with false by reflexivity. reflexivity.
  - replace (20 <? 1)%float with false by reflexivity.
    replace (20 <? 10)%float with false by reflexivity.
    replace (20 <? 20)%float with false by reflexivity. reflexivity.
  - replace (infinity <? 1)%float with false by reflexivity.
    replace (infinity <? 10)%float with false by reflexivity.
    replace (20 <? infinity)%float with true by reflexivity. reflexivity.
  - replace (neg_infinity <? 1)%float with true by reflexivity.
    replace (neg_infinity <? 10)%float with true by reflexivity.
    destruct (_ <? 2)%float; reflexivity.
Qed.

Lemma conseil_regulateur_outcome_witness :
  @Sample.no_attribute (list complex) Sample.system = Raised (Exn "AttributeError")
  /\ conseil_regulateur Sample.no_attribute Sample.no_attribute
       (Sample.step_info (Sample.metrics 5%float 3%float)) Sample.system
     = Raised (Exn "AttributeError").
Proof.
  split; [reflexivity|].
  apply (proj1 (conseil_regulateur_outcome Sample.no_attribute Sample.no_attribute
                  (Sample.step_info (Sample.metrics 5%float 3%float)) Sample.system)).
  left. split; [eexists; reflexivity|reflexivity].
Defined.

Lemma conseil_regulateur_settling_unused_witness :
  let info := Sample.metrics 15%float 3%float in
  let info' := Sample.metrics 15%float 0.5%float in
  (dict_get info "Overshoot" 0 <? 1)%float = false
  /\ conseil_regulateur (Sample.roots []) Sample.no_attribute (Sample.step_info info)
       Sample.system
     = conseil_regulateur (Sample.roots []) Sample.no_attribute
         (fun _ => Returned info') Sample.system.
Proof.
  intros info info'. split; [reflexivity|].
  apply (conseil_regulateur_settling_unused (Sample.roots []) Sample.no_attribute
           (Sample.step_info info) Sample.system [] info info');
    reflexivity.
Defined.

Lemma conseil_regulateur_reads_two_entries_witness :
  let info := Sample.metrics 5%float 3%float in
  let info' := <["RiseTime" := 1%float]> info in
  info !! "Overshoot" = info' !! "Overshoot"
  /\ conseil_regulateur (Sample.roots []) Sample.no_attribute (Sample.step_info info)
       Sample.system
     = conseil_regulateur Sample.no_attribute (Sample.roots Sample.conjugate_pair)
         (Sample.step_info info') (tf [1%float] [1%float; 0%float; 1%float]).
Proof.
  intros info info'. split; [reflexivity|].
  apply (conseil_regulateur_reads_two_entries
           (Sample.roots []) Sample.no_attribute
           Sample.no_attribute (Sample.roots Sample.conjugate_pair)
           (Sample.step_info info) (Sample.step_info info')
           Sample.system (tf [1%float] [1%float; 0%float; 1%float])
           [] Sample.conjugate_pair info info');
    reflexivity.
Defined.

Lemma conseil_regulateur_thresholds_witness :
  let info := Sample.metrics 10%float 1%float in
  info !! "Overshoot" = Some 10%float
  /\ conseil_regulateur (Sample.roots []) Sample.no_attribute (Sample.step_info info)
       Sample.system = Returned advice_PID.
Proof.
  intros info. split; [reflexivity|].
  destruct (conseil_regulateur_thresholds (Sample.roots []) Sample.no_attribute
              (Sample.step_info info) Sample.system [] info eq_refl eq_refl)
    as (_ & Hten & _).
  apply Hten. reflexivity.
Defined.

(** ** tf_to_sympy and symbolic_analysis, further *)

Lemma broadcast_arrays {A} (f : expr A -> expr A -> expr A) (xs ys : list (expr A)) :
  (broadcastable (length xs) (length ys) = false ->
     broadcast f (Array xs) (Array ys) = Raised (Exn "ValueError"))
  /\ (broadcastable (length xs) (length ys) = true ->
     exists quotients,
       broadcast f (Array xs) (Array ys) = Returned (Array quotients)
       /\ length quotients
          = if Nat.eqb (length xs) 1 then length ys else length xs).
Proof.
  unfold broadcast, broadcastable.
  destruct (Nat.eqb (length xs) (length ys)) eqn:Hlen.
  - split; [discriminate|]. intros _. eexists. split; [reflexivity|].
    rewrite length_zip_with. apply Nat.eqb_eq in Hlen.
    destruct (Nat.eqb (length xs) 1); lia.
  - destruct xs as [|a [|a' xs]]; destruct ys as [|b [|b' ys]];
      simpl in Hlen; try discriminate Hlen; simpl.
    + split; [discriminate|]. intros _. eexists. split; reflexivity.
    + split; [reflexivity|discriminate].
    + split; [discriminate|]. intros _. eexists. split; reflexivity.
    + split; [discriminate|]. intros _. eexists. split; [reflexivity|].
      simpl. rewrite length_map. reflexivity.
    + split; [reflexivity|discriminate].
    + split; [discriminate|]. intros _. eexists. split; [reflexivity|].
      simpl. rewrite length_map. reflexivity.
    + split; [reflexivity|discriminate].
Qed.

(** X8. Whether [tf_to_sympy] gets as far as [simplify] is decided by the
    two lengths alone.  When the numerator and the denominator have as many
    coefficients, or one of them has exactly one, [simplify] receives an
    array of element-wise quotients and its outcome is the result; in every
    other case the division raises ValueError and [simplify] is never
    asked. *)
Theorem tf_to_sympy_lengths
    (A : Type) (N : PyNum A) (simplify : value A -> outcome (value A))
    (sys : TransferFunction A) :
  let n := length (num_coeffs sys) in
  let m := length (den_coeffs sys) in
  (broadcastable n m = false ->
     tf_to_sympy simplify sys = Raised (Exn "ValueError"))
  /\ (broadcastable n m = true ->
     exists quotients,
       tf_to_sympy simplify sys = simplify (Array quotients)
       /\ length quotients = if Nat.eqb n 1 then m else n).
Proof.
  intros n m. rewrite tf_to_sympy_unfold.
  destruct (broadcast_arrays Div
              (map (constant_term (Symbol "s")) (num_coeffs sys))
              (map (constant_term (Symbol "s")) (den_coeffs sys)))
    as [Hbad Hgood].
  rewrite !length_map in Hbad, Hgood. fold n m in Hbad, Hgood.
  split.
  - intros Hnm. rewrite (Hbad Hnm). reflexivity.
  - intros Hnm. destruct (Hgood Hnm) as (quotients & Hq & Hlength).
    exists quotients. rewrite Hq. split; [reflexivity|exact Hlength].
Qed.

Lemma tf_to_sympy_lengths_witness :
  let sys := tf [1%float; 0.5%float] [1%float; 2%float; 1%float] in
  broadcastable (length (num_coeffs sys)) (length (den_coeffs sys)) = false
  /\ tf_to_sympy Sample.simplify sys = Raised (Exn "ValueError").
Proof.
  intros sys. split; [reflexivity|].
  apply (tf_to_sympy_lengths float float_num Sample.simplify sys). reflexivity.
Defined.

Section PolynomialExpressions.
Context {A : Type} `{PyNum A}.

Local Abbreviation monomial n s := (fun (i : nat) (c : A) => Mul (Number c) (Pow s (n - i - 1))).

Lemma monomials_shift (n : nat) (s : expr A) (l : list A) :
  imap (monomial (S n) s ∘ S) l = imap (monomial n s) l.
Proof.
  apply imap_ext. intros i c _. simpl. reflexivity.
Qed.

Hypothesis exact : semi_ring_theory zero one add mul (@eq A).
Add Ring exact_ring' : exact.

Lemma eval_monomials (x : A) (s : expr A) (l : list A) :
  eval_poly x s = Some x ->
  eval_poly x (foldr Add (Number zero) (imap (monomial (length l) s) l))
  = Some (polyval l x).
Proof using exact.
  intros Hs. induction l as [|c l IH]; [reflexivity|].
  change (length (c :: l)) with (S (length l)).
  rewrite imap_cons, monomials_shift. simpl foldr.
  simpl eval_poly. rewrite IH, Hs.
  rewrite (polyval_cons exact). f_equal.
  replace (length l - 0) with (length l) by lia. reflexivity.
Qed.

End PolynomialExpressions.

(** X9. Whenever [symbolic_analysis] returns, its first component is what
    [simplify] made of a quotient N/D of two polynomial expressions in [s]
    that carry the coefficient lists highest degree first: with exact
    arithmetic N and D take, at every point, the values [numpy.polyval]
    gives for the numerator and denominator lists, so the symbolic view and
    the transfer-function view of the same lists describe the same
    polynomials. *)
Theorem symbolic_analysis_ratio
    (A : Type) (N : PyNum A)
    (simplify : value A -> outcome (value A))
    (integrate diff : value A -> expr A -> outcome (value A))
    (num den : list A) (Gs integ deriv : value A) :
  semi_ring_theory zero one add mul (@eq A) ->
  symbolic_analysis simplify integrate diff num den = Returned (Gs, integ, deriv) ->
  exists Ns Ds : expr A,
    simplify (Scalar (Div Ns Ds)) = Returned Gs
    /\ (forall x, eval_poly x Ns = Some (polyval num x)
                  /\ eval_poly x Ds = Some (polyval den x)).
Proof.
  intros exact Hsa.
  exists (Poly_as_expr num (Symbol "s")), (Poly_as_expr den (Symbol "s")).
  split.
  - unfold symbolic_analysis, mbind, outcome_bind, Py.bind in Hsa.
    destruct (simplify (Scalar _)) as [g|]; [|discriminate].
    destruct (integrate g _) as [p|]; [|discriminate].
    destruct (simplify p) as [i|]; [|discriminate].
    destruct (diff g _) as [d|]; [|discriminate].
    destruct (simplify d) as [d'|]; [|discriminate].
    injection Hsa as <- _ _. reflexivity.
  - intros x. split; apply (eval_monomials exact); reflexivity.
Qed.

Lemma symbolic_analysis_ratio_witness :
  semi_ring_theory (@zero Z _) one add mul (@eq Z)
  /\ exists Gs integ deriv,
       symbolic_analysis Sample.simplify Sample.integrate Sample.diff
         [1%Z] [1%Z; 2%Z; 1%Z] = Returned (Gs, integ, deriv)
       /\ exists Ns Ds : expr Z,
            Sample.simplify (Scalar (Div Ns Ds)) = Returned Gs
            /\ (forall x, eval_poly x Ns = Some (polyval [1%Z] x)
                          /\ eval_poly x Ds = Some (polyval [1%Z; 2%Z; 1%Z] x)).
Proof.
  split; [exact Z_exact|].
  eexists _, _, _. split; [reflexivity|].
  apply (symbolic_analysis_ratio Z Z_num Sample.simplify Sample.integrate Sample.diff
           [1%Z] [1%Z; 2%Z; 1%Z] _ _ _ Z_exact eq_refl).
Defined.

(** ** create_pid and closed_loop together *)

Section PidLoop.
Context {A : Type} `{PyNum A} `{PyTruth A}.
Hypothesis exact : semi_ring_theory zero one add mul (@eq A).
Hypothesis falsy_zero : forall x : A, falsy x = true <-> x = zero.
Hypothesis one_not_zero : (one : A) <> zero.
Add Ring exact_pid_ring : exact.



Lemma polyval_unit (s : A) : polyval [one] s = one.
Proof using exact. unfold polyval. simpl. ring. Qed.




End PidLoop.



(** ** The script, further *)

(** A sequence that starts with a truthy coefficient is stored as it is. *)
Lemma construct_kept {A} `{PyNum A} `{PyTruth A} (num den : list A) (c d : A) :
  falsy (hd c num) = false -> falsy (hd d den) = false ->
  num <> [] -> den <> [] ->
  construct num den = Returned (tf num den).
Proof.
  intros Hn Hd Hnum Hden.
  destruct num as [|n0 num]; [congruence|]. destruct den as [|d0 den]; [congruence|].
  simpl in Hn, Hd.
  unfold construct, all_zero, truncatecoeff. simpl. rewrite Hn, Hd. simpl.
  rewrite Hd. reflexivity.
Qed.

Lemma tf_to_sympy_incompatible {A} `{PyNum A} (simplify : value A -> outcome (value A))
    (sys : TransferFunction A) :
  broadcastable (length (num_coeffs sys)) (length (den_coeffs sys)) = false ->
  tf_to_sympy simplify sys = Raised (Exn "ValueError").
Proof.
  intros Hlen. rewrite tf_to_sympy_unfold.
  destruct (broadcast_arrays Div
              (map (constant_term (Symbol "s")) (num_coeffs sys))
              (map (constant_term (Symbol "s")) (den_coeffs sys)))
    as [Hbad _].
  rewrite !length_map in Hbad. rewrite (Hbad Hlen). reflexivity.
Qed.

Section ScriptFurther.
Variable py_float : string -> outcome float.
Variable simplify : value float -> outcome (value float).
Variable integrate : value float -> expr float -> outcome (value float).
Variable diff : value float -> expr float -> outcome (value float).
Variable control_poles : TransferFunction float -> outcome (list complex).
Variable control_pole : TransferFunction float -> outcome (list complex).
Variable control_step_info : TransferFunction float -> outcome (gmap string float).
Variable control_step_response :
  TransferFunction float -> outcome (list float * list float).

Local Abbreviation run :=
  (script py_float simplify integrate diff control_poles control_pole
     control_step_info control_step_response).
Local Abbreviation pure_run :=
  (compute py_float simplify integrate diff control_poles control_pole
     control_step_info control_step_response).

Lemma run_returns inp g g1 :
  run inp g = Returned g1 ->
  exists r, pure_run inp = Returned r /\ g1 = bindings inp r ∪ g.
Proof.
  rewrite script_compute. unfold mbind, outcome_bind, Py.bind.
  destruct (pure_run inp) as [r|e]; [|discriminate].
  intros [= <-]. exists r. split; reflexivity.
Qed.

Lemma bindings_unassigned inp r name :
  name ∉ assigned -> bindings inp r !! name = None.
Proof.
  unfold assigned. intros Hnot.
  repeat (apply not_elem_of_cons in Hnot as [? Hnot]).
  unfold bindings.
  repeat (rewrite lookup_insert_ne by congruence).
  apply lookup_empty.
Qed.

(** X11. A run that completes binds every one of the twenty-four names the
    script assigns and touches nothing else: any other name of the module
    namespace holds after the run what it held before. *)
Theorem script_frame inp g g1 :
  run inp g = Returned g1 ->
  (forall name, name ∈ assigned -> is_Some (g1 !! name))
  /\ (forall name, name ∉ assigned -> g1 !! name = g !! name).
Proof.
  intros Hrun. destruct (run_returns inp g g1 Hrun) as (r & _ & ->).
  split.
  - intros name Hin. rewrite lookup_union_l'; apply bindings_assigned, Hin.
  - intros name Hnot. apply lookup_union_r, bindings_unassigned, Hnot.
Qed.

(** X13. Take two texts that parse to coefficient lists starting with a
    non-zero coefficient (the transfer function stores such lists
    unchanged).  When the lengths of the lists differ and neither is one,
    the script stops with ValueError in [tf_to_sympy], whatever the
    libraries would have answered: no simplification, no root finding and
    no simulation takes place. *)
Theorem script_incompatible_lengths inp g (num den : list float) :
  parse_coefficients py_float (in_num_raw inp) = Returned num ->
  parse_coefficients py_float (in_den_raw inp) = Returned den ->
  (hd 0%float num =? 0)%float = false ->
  (hd 0%float den =? 0)%float = false ->
  broadcastable (length num) (length den) = false ->
  run inp g = Raised (Exn "ValueError").
Proof.
  intros Hnum Hden Hn0 Hd0 Hlen. rewrite script_compute. unfold compute.
  rewrite Hnum, Hden. unfold mbind, outcome_bind, Py.bind.
  assert (Hkept : construct num den = Returned (tf num den)).
  { apply (construct_kept num den 0%float 0%float).
    - exact Hn0.
    - exact Hd0.
    - intros ->. discriminate Hn0.
    - intros ->. discriminate Hd0. }
  rewrite Hkept, (tf_to_sympy_incompatible simplify (tf num den) Hlen).
  reflexivity.
Qed.

End ScriptFurther.

Lemma script_frame_witness :
  let run := script SampleInput.py_float Sample.simplify Sample.integrate Sample.diff
               (Sample.roots []) Sample.no_attribute
               (Sample.step_info (Sample.metrics 0.5%float 1%float))
               Sample.step_response in
  let inp := Inputs 0 1 "1" "1,2,1" 1%float 1%float 0.5%float in
  let g : gmap string object := <["history" := OList [2%float; 1%float]]> ∅ in
  exists g1, run inp g = Returned g1 /\ g1 !! "history" = g !! "history".
Proof.
  intros run inp g.
  assert (Hfirst : exists g1, run inp g = Returned g1)
    by (vm_compute; eexists; reflexivity).
  destruct Hfirst as [g1 Hfirst]. exists g1. split; [exact Hfirst|].
  apply (proj2 (script_frame SampleInput.py_float Sample.simplify Sample.integrate
                  Sample.diff (Sample.roots []) Sample.no_attribute
                  (Sample.step_info (Sample.metrics 0.5%float 1%float))
                  Sample.step_response inp g g1 Hfirst)).
  unfold assigned. intros Hin.
  repeat (apply elem_of_cons in Hin as [Hin|Hin]; [discriminate|]).
  apply elem_of_nil in Hin. exact Hin.
Defined.

Lemma script_incompatible_lengths_witness :
  let inp := Inputs 0 1 "1,0.5" "1,2,1" 1%float 1%float 0.5%float in
  let num := [1%float; 0.5%float] in
  let den := [1%float; 2%float; 1%float] in
  parse_coefficients SampleInput.py_float (in_num_raw inp) = Returned num
  /\ parse_coefficients SampleInput.py_float (in_den_raw inp) = Returned den
  /\ broadcastable (length num) (length den) = false
  /\ script SampleInput.py_float Sample.simplify Sample.integrate Sample.diff
       (Sample.roots []) Sample.no_attribute
       (Sample.step_info (Sample.metrics 0.5%float 1%float))
       Sample.step_response inp ∅ = Raised (Exn "ValueError").
Proof.
  intros inp num den.
  split; [reflexivity|]. split; [reflexivity|]. split; [reflexivity|].
  apply (script_incompatible_lengths SampleInput.py_float Sample.simplify
           Sample.integrate Sample.diff (Sample.roots []) Sample.no_attribute
           (Sample.step_info (Sample.metrics 0.5%float 1%float))
           Sample.step_response inp ∅ num den); reflexivity.
Defined.

(** ** block_diagram *)

(** X14. The block diagram is one feedback loop.  Its five node names are
    pairwise distinct and every edge joins two declared nodes; the edges
    without attributes are the forward chain in, sum, pid, sys, out; the
    only other edge is the dashed one labelled "-" from out back to sum;
    every node is reached from in, and nothing leads back to in. *)
Theorem block_diagram_feedback_loop :
  Graphviz.node_names block_diagram = ["in"; "sum"; "pid"; "sys"; "out"]
  /\ Graphviz.distinct (Graphviz.node_names block_diagram) = true
  /\ Graphviz.endpoints_declared block_diagram = true
  /\ Graphviz.plain_edges block_diagram
     = [("in", "sum"); ("sum", "pid"); ("pid", "sys"); ("sys", "out")]
  /\ Graphviz.attributed_edges block_diagram
     = [("out", "sum", [("label", "-"); ("style", "dashed")])]
  /\ forallb (Graphviz.reachable block_diagram "in")
       (Graphviz.node_names block_diagram) = true
  /\ Graphviz.reachable block_diagram "out" "sum" = true
  /\ forallb (fun n => negb (Graphviz.reachable block_diagram n "in"))
       ["sum"; "pid"; "sys"; "out"] = true.
Proof.
  repeat split; vm_compute; reflexivity.
Qed.
